(** * Validated retry requesters of [gpt_structure.py]

    A shallow embedding of
    [reverie/backend_server/persona/prompt_template/gpt_structure.py]:
    the single-call primitive [_gpt5_nano_complete], the request functions
    built on it, and the four retry loops
    [safe_generate_response], [ChatGPT_safe_generate_response],
    [GPT4_safe_generate_response] and [ChatGPT_safe_generate_response_OLD],
    together with [generate_prompt], from the point where the template
    file has been read, and [get_embedding].

    Modelling conventions.
    - A Python [str] is a [string]; one [ascii] stands for one code point
      in the range 0..255.
    - Python values that flow through the loops (JSON documents, the
      fail-safe value, results of the cleanup function) are [pyval]s.
    - A Python exception is a value of [exn]; only instances of
      [Exception] are modelled, so [except Exception] and a bare [except]
      catch the same errors.  The module [Interrupt] embeds the primitive
      and the request functions once more for a client that may raise
      another [BaseException], where the two handlers differ.
    - Code runs in the monad [M]: it threads the state of the remote
      service together with a trace of the calls made, and either returns
      or raises.  What was logged before a raise stays logged.
    - The trace records two kinds of calls.  A transport call is one call
      of a request function ([GPT_request], [ChatGPT_request],
      [GPT4_request]), which is what a retry loop issues once per attempt;
      a client call is one [client.chat.completions.create], of which a
      transport call makes one or two.
    - The client and [json.loads] are parameters ([Runtime]); the
      validator and the cleanup are pure functions that return or raise.
    - [print] and [time.sleep] change neither results nor calls and are
      left out; the loop index of [for i in range(repeat)] is only ever
      printed. *)

From Stdlib Require Import String Ascii List ZArith NArith Bool Lia.
From Stdlib Require Import DecimalString.
Import ListNotations.
Local Open Scope string_scope.
Local Open Scope Z_scope.

(* ===================================================================== *)
(** ** Python strings *)
(* ===================================================================== *)

Module Str.

Definition nl : string := String (ascii_of_nat 10) EmptyString.
Definition dq : string := String (ascii_of_nat 34) EmptyString.

(** [str.isspace] for one character, on the code points 0..255. *)
Definition isspace (c : ascii) : bool :=
  let n := N_of_ascii c in
  ((9 <=? n) && (n <=? 13) || (28 <=? n) && (n <=? 32)
   || (n =? 133) || (n =? 160))%N.

Fixpoint lstrip (s : string) : string :=
  match s with
  | String c r => if isspace c then lstrip r else s
  | EmptyString => EmptyString
  end.

(** [rstrip] keeps a character when it is not a space or when something
    that is kept follows it. *)
Fixpoint rstrip (s : string) : string :=
  match s with
  | EmptyString => EmptyString
  | String c r =>
      match rstrip r with
      | EmptyString => if isspace c then EmptyString else String c EmptyString
      | r' => String c r'
      end
  end.

(** [s.strip()] *)
Definition strip (s : string) : string := rstrip (lstrip s).

(** Truth value of a [str]: non-empty. *)
Definition truthy (s : string) : bool :=
  match s with EmptyString => false | _ => true end.

(** [s.rfind(c)] for a one-character needle: the highest index of [c],
    or [-1]. *)
Fixpoint rfind (c : ascii) (s : string) : Z :=
  match s with
  | EmptyString => -1
  | String d r =>
      let k := rfind c r in
      if 0 <=? k then k + 1
      else if Ascii.eqb d c then 0 else -1
  end.

Fixpoint take (n : nat) (s : string) : string :=
  match n, s with
  | S k, String c r => String c (take k r)
  | _, _ => EmptyString
  end.

(** [s[:e]]: a negative [e] counts from the end. *)
Definition slice_to (s : string) (e : Z) : string :=
  if e <? 0 then take (Z.to_nat (Z.of_nat (String.length s) + e)) s
  else take (Z.to_nat e) s.

(** [s in l] for a list of strings. *)
Fixpoint elem (s : string) (l : list string) : bool :=
  match l with
  | [] => false
  | x :: r => String.eqb s x || elem s r
  end.

Fixpoint contains_char (c : ascii) (s : string) : bool :=
  match s with
  | EmptyString => false
  | String d r => Ascii.eqb d c || contains_char c r
  end.

End Str.

(* ===================================================================== *)
(** ** Python values and exceptions *)
(* ===================================================================== *)

(** The values of the embedding: what [json.loads] can produce, which also
    covers fail-safe values and cleanup results.  A [float] is kept as the
    text of its literal. *)
#[warnings="-register-all"]
Inductive pyval : Type :=
| PyNone
| PyBool (b : bool)
| PyInt (z : Z)
| PyFloat (literal : string)
| PyStr (s : string)
| PyList (l : list pyval)
| PyDict (d : list (string * pyval)).

Inductive exn : Type :=
| TypeError
| KeyError
| AttributeError
| IndexError
| ValueError
| JSONDecodeError
| APIError (msg : string).

(** A computation without effects that returns or raises. *)
Definition result (A : Type) : Type := (exn + A)%type.
Definition Ok {A} (a : A) : result A := inr a.
Definition Raise {A} (e : exn) : result A := inl e.

Module Dict.

Fixpoint lookup (k : string) (d : list (string * pyval)) : option pyval :=
  match d with
  | [] => None
  | (k', v) :: r => if String.eqb k k' then Some v else lookup k r
  end.

(** [d[k] = v]: an existing key keeps its place. *)
Fixpoint set (k : string) (v : pyval) (d : list (string * pyval))
  : list (string * pyval) :=
  match d with
  | [] => [(k, v)]
  | (k', v') :: r =>
      if String.eqb k k' then (k, v) :: r else (k', v') :: set k v r
  end.

End Dict.

(** [v[key]] for a string key: only a [dict] holding the key answers; a
    missing key is a [KeyError], any other value a [TypeError]. *)
Definition py_getitem (v : pyval) (key : string) : result pyval :=
  match v with
  | PyDict d =>
      match Dict.lookup key d with
      | Some x => Ok x
      | None => Raise KeyError
      end
  | _ => Raise TypeError
  end.

(** [v.get(key, default)]: defined on a [dict], an [AttributeError]
    elsewhere. *)
Definition py_get (v : pyval) (key : string) (default : pyval) : result pyval :=
  match v with
  | PyDict d =>
      match Dict.lookup key d with
      | Some x => Ok x
      | None => Ok default
      end
  | _ => Raise AttributeError
  end.

(** Whether [v] is a [dict] that has [key]. *)
Definition has_key (v : pyval) (key : string) : bool :=
  match v with
  | PyDict d => match Dict.lookup key d with Some _ => true | None => false end
  | _ => false
  end.

(* ===================================================================== *)
(** ** A decoder for JSON text *)
(* ===================================================================== *)

(** An executable decoder that follows the scanner of Python's [json]
    module (strict mode): used to run the loops on concrete documents.  A
    [\u] escape above code point 255 is outside the modelled strings and
    is reported as a decode failure. *)
Module Json.

Definition ws (c : ascii) : bool :=
  let n := N_of_ascii c in
  ((n =? 32) || (n =? 9) || (n =? 10) || (n =? 13))%N.

Fixpoint skip_ws (s : string) : string :=
  match s with
  | String c r => if ws c then skip_ws r else s
  | EmptyString => EmptyString
  end.

Definition is_digit (c : ascii) : bool :=
  let n := N_of_ascii c in ((48 <=? n) && (n <=? 57))%N.

Definition digit_val (c : ascii) : Z := Z.of_N (N_of_ascii c) - 48.

Definition hex_val (c : ascii) : option N :=
  let n := N_of_ascii c in
  if ((48 <=? n) && (n <=? 57))%N then Some (n - 48)%N
  else if ((97 <=? n) && (n <=? 102))%N then Some (n - 87)%N
  else if ((65 <=? n) && (n <=? 70))%N then Some (n - 55)%N
  else None.

Definition hex4 (a b c d : ascii) : option N :=
  match hex_val a, hex_val b, hex_val c, hex_val d with
  | Some x, Some y, Some z, Some w => Some (((x * 16 + y) * 16 + z) * 16 + w)%N
  | _, _, _, _ => None
  end.

Definition rev_string (s : string) : string :=
  string_of_list_ascii (rev (list_ascii_of_string s)).

(** The body of a string literal, after its opening quote: the decoded
    text and what follows the closing quote.  [acc] holds the decoded
    characters, last one first. *)
Fixpoint scan_string (s : string) (acc : string) : option (string * string) :=
  match s with
  | EmptyString => None
  | String c r =>
      if Ascii.eqb c "034" then Some (rev_string acc, r)
      else if Ascii.eqb c "\" then
        match r with
        | String e r' =>
            if Ascii.eqb e "034" then scan_string r' (String "034" acc)
            else if Ascii.eqb e "\" then scan_string r' (String "\" acc)
            else if Ascii.eqb e "/" then scan_string r' (String "/" acc)
            else if Ascii.eqb e "b" then scan_string r' (String "008" acc)
            else if Ascii.eqb e "f" then scan_string r' (String "012" acc)
            else if Ascii.eqb e "n" then scan_string r' (String "010" acc)
            else if Ascii.eqb e "r" then scan_string r' (String "013" acc)
            else if Ascii.eqb e "t" then scan_string r' (String "009" acc)
            else if Ascii.eqb e "u" then
              match r' with
              | String h1 (String h2 (String h3 (String h4 r''))) =>
                  match hex4 h1 h2 h3 h4 with
                  | Some n =>
                      if (n <? 256)%N
                      then scan_string r'' (String (ascii_of_N n) acc)
                      else None
                  | None => None
                  end
              | _ => None
              end
            else None
        | EmptyString => None
        end
      else if (N_of_ascii c <? 32)%N then None
      else scan_string r (String c acc)
  end.

(** The longest run of digits at the start of [s], and the rest. *)
Fixpoint span_digits (s : string) : string * string :=
  match s with
  | String c r =>
      if is_digit c then let (d, t) := span_digits r in (String c d, t)
      else (EmptyString, s)
  | EmptyString => (EmptyString, EmptyString)
  end.

Fixpoint int_of_digits (acc : Z) (s : string) : Z :=
  match s with
  | String c r => int_of_digits (10 * acc + digit_val c) r
  | EmptyString => acc
  end.

(** The integer part [0|[1-9]\d*]. *)
Definition scan_int_part (s : string) : option (string * string) :=
  match s with
  | String c r =>
      if Ascii.eqb c "0" then Some (String c EmptyString, r)
      else if is_digit c then Some (span_digits s)
      else None
  | EmptyString => None
  end.

(** The optional fraction [\.\d+]. *)
Definition scan_frac (s : string) : string * string :=
  match s with
  | String c r =>
      if Ascii.eqb c "." then
        match span_digits r with
        | (EmptyString, _) => (EmptyString, s)
        | (d, t) => (String c d, t)
        end
      else (EmptyString, s)
  | EmptyString => (EmptyString, s)
  end.

(** The optional exponent [[eE][-+]?\d+]. *)
Definition scan_exp (s : string) : string * string :=
  match s with
  | String c r =>
      if Ascii.eqb c "e" || Ascii.eqb c "E" then
        match r with
        | String g r' =>
            if Ascii.eqb g "-" || Ascii.eqb g "+" then
              match span_digits r' with
              | (EmptyString, _) => (EmptyString, s)
              | (d, t) => (String c (String g d), t)
              end
            else
              match span_digits r with
              | (EmptyString, _) => (EmptyString, s)
              | (d, t) => (String c d, t)
              end
        | EmptyString => (EmptyString, s)
        end
      else (EmptyString, s)
  | EmptyString => (EmptyString, s)
  end.

(** A number at the start of [s]: an [int] when it has neither fraction
    nor exponent, a [float] otherwise. *)
Definition scan_number (s : string) : option (pyval * string) :=
  let (neg, s1) :=
    match s with
    | String c r => if Ascii.eqb c "-" then (true, r) else (false, s)
    | EmptyString => (false, s)
    end in
  match scan_int_part s1 with
  | None => None
  | Some (ip, s2) =>
      let (fp, s3) := scan_frac s2 in
      let (ep, s4) := scan_exp s3 in
      match fp, ep with
      | EmptyString, EmptyString =>
          let n := int_of_digits 0 ip in
          Some (PyInt (if neg then - n else n), s4)
      | _, _ =>
          Some (PyFloat ((if neg then "-" else EmptyString) ++ ip ++ fp ++ ep), s4)
      end
  end.

(** [s] without the prefix [p], when it starts with it. *)
Fixpoint drop_prefix (p s : string) : option string :=
  match p, s with
  | EmptyString, _ => Some s
  | String a p', String b s' =>
      if Ascii.eqb a b then drop_prefix p' s' else None
  | _, EmptyString => None
  end.

Definition scan_literal (s : string) : option (pyval * string) :=
  match drop_prefix "null" s with
  | Some r => Some (PyNone, r)
  | None =>
  match drop_prefix "true" s with
  | Some r => Some (PyBool true, r)
  | None =>
  match drop_prefix "false" s with
  | Some r => Some (PyBool false, r)
  | None =>
  match scan_number s with
  | Some x => Some x
  | None =>
  match drop_prefix "NaN" s with
  | Some r => Some (PyFloat "NaN", r)
  | None =>
  match drop_prefix "Infinity" s with
  | Some r => Some (PyFloat "Infinity", r)
  | None =>
  match drop_prefix "-Infinity" s with
  | Some r => Some (PyFloat "-Infinity", r)
  | None => None
  end end end end end end end.

(** One value at the start of [s] and the text after it.  [members] and
    [elements] read what follows the first key quote of an object and
    the opening bracket of a non-empty array. *)
Fixpoint scan_value (fuel : nat) (s : string) : option (pyval * string) :=
  match fuel with
  | O => None
  | S f =>
      match s with
      | EmptyString => None
      | String c r =>
          if Ascii.eqb c "034" then
            match scan_string r EmptyString with
            | Some (t, r') => Some (PyStr t, r')
            | None => None
            end
          else if Ascii.eqb c "{" then
            match skip_ws r with
            | String c' r' =>
                if Ascii.eqb c' "}" then Some (PyDict [], r')
                else if Ascii.eqb c' "034" then
                  match members f r' [] with
                  | Some (d, t) => Some (PyDict d, t)
                  | None => None
                  end
                else None
            | EmptyString => None
            end
          else if Ascii.eqb c "[" then
            match skip_ws r with
            | String c' r' =>
                if Ascii.eqb c' "]" then Some (PyList [], r')
                else
                  match elements f (String c' r') [] with
                  | Some (l, t) => Some (PyList l, t)
                  | None => None
                  end
            | EmptyString => None
            end
          else scan_literal s
      end
  end
with members (fuel : nat) (s : string) (acc : list (string * pyval))
  : option (list (string * pyval) * string) :=
  match fuel with
  | O => None
  | S f =>
      match scan_string s EmptyString with
      | None => None
      | Some (k, s1) =>
          match skip_ws s1 with
          | String c s2 =>
              if Ascii.eqb c ":" then
                match scan_value f (skip_ws s2) with
                | None => None
                | Some (v, s3) =>
                    let acc' := Dict.set k v acc in
                    match skip_ws s3 with
                    | String c' s4 =>
                        if Ascii.eqb c' "}" then Some (acc', s4)
                        else if Ascii.eqb c' "," then
                          match skip_ws s4 with
                          | String q s5 =>
                              if Ascii.eqb q "034" then members f s5 acc'
                              else None
                          | EmptyString => None
                          end
                        else None
                    | EmptyString => None
                    end
                end
              else None
          | EmptyString => None
          end
      end
  end
with elements (fuel : nat) (s : string) (acc : list pyval)
  : option (list pyval * string) :=
  match fuel with
  | O => None
  | S f =>
      match scan_value f s with
      | None => None
      | Some (v, s1) =>
          match skip_ws s1 with
          | String c s2 =>
              if Ascii.eqb c "]" then Some (rev (v :: acc), s2)
              else if Ascii.eqb c "," then elements f (skip_ws s2) (v :: acc)
              else None
          | EmptyString => None
          end
      end
  end.

(** [json.loads(s)]: one value, white space allowed around it, nothing
    else. *)
Definition loads (s : string) : result pyval :=
  match scan_value (S (String.length s)) (skip_ws s) with
  | Some (v, r) =>
      match skip_ws r with
      | EmptyString => Ok v
      | _ => Raise JSONDecodeError
      end
  | None => Raise JSONDecodeError
  end.

End Json.

(* ===================================================================== *)
(** ** The remote service and the monad of the embedding *)
(* ===================================================================== *)

(** The keyword arguments of one [client.chat.completions.create] call.
    [content] is the text of the single user message. *)
Record Request : Type := {
  model : string;
  content : string;
  max_completion_tokens : option pyval;
  max_tokens : option pyval;
  temperature : option Z;
  stop : option pyval
}.

(** What one call to the client gives: either the call (or reading
    [response.choices[0].message.content]) raises, or the content is a
    [str] or [None]. *)
Inductive Outcome : Type :=
| Raises (e : exn)
| Content (c : option string).

(** What the module takes from outside: the chat-completion client, as a
    machine with a state of its own, and [json.loads]. *)
Class Runtime : Type := {
  world : Type;
  chat_completions_create : Request -> world -> Outcome * world;
  json_loads : string -> result pyval
}.

(** The calls a run makes: [Requested f] when the request function [f]
    ([GPT_request], [ChatGPT_request], [GPT4_request] or
    [ChatGPT_single_request]) is entered, [Created r] for a call to the
    client. *)
Inductive event : Type :=
| Requested (fn : string)
| Created (r : Request).

Fixpoint transport_calls (t : list event) : nat :=
  match t with
  | [] => O
  | Requested _ :: r => S (transport_calls r)
  | Created _ :: r => transport_calls r
  end.

Fixpoint client_calls (t : list event) : list Request :=
  match t with
  | [] => []
  | Requested _ :: r => client_calls r
  | Created q :: r => q :: client_calls r
  end.

(** The client calls of a trace addressed to model [m]. *)
Definition calls_to (m : string) (t : list event) : list Request :=
  filter (fun q => String.eqb (model q) m) (client_calls t).

(** Control after one round of a loop body that may [return]. *)
Inductive flow (A : Type) : Type :=
| Next
| Return (a : A).
Arguments Next {A}.
Arguments Return {A} a.

(** The state a run threads: the service, of type [W], and the trace,
    oldest event first. *)
Record State (W : Type) : Type := {
  remote : W;
  trace : list event
}.
Arguments remote {W} s.
Arguments trace {W} s.
Arguments Build_State {W} remote trace.

Section Embedding.

Context `{RT : Runtime}.

Definition M (A : Type) : Type := State world -> result A * State world.

Definition ret {A} (a : A) : M A := fun st => (Ok a, st).

Definition raise {A} (e : exn) : M A := fun st => (Raise e, st).

Definition bind {A B} (m : M A) (k : A -> M B) : M B :=
  fun st =>
    match m st with
    | (inr a, st') => k a st'
    | (inl e, st') => (inl e, st')
    end.

(** [try: m  except: h] *)
Definition try_except {A} (m : M A) (h : exn -> M A) : M A :=
  fun st =>
    match m st with
    | (inr a, st') => (inr a, st')
    | (inl e, st') => h e st'
    end.

Definition lift {A} (r : result A) : M A := fun st => (r, st).

Definition log (e : event) : M unit :=
  fun st => (Ok tt, {| remote := remote st; trace := trace st ++ [e] |}).

(** One call to the client, [response.choices[0].message.content]
    included. *)
Definition create (r : Request) : M (option string) :=
  fun st =>
    let (o, w) := chat_completions_create r (remote st) in
    let st' := {| remote := w; trace := trace st ++ [Created r] |} in
    match o with
    | Raises e => (Raise e, st')
    | Content c => (Ok c, st')
    end.

(** [for i in range(n): body], where the body does not read [i]. *)
Fixpoint for_range {A} (n : nat) (body : M (flow A)) : M (flow A) :=
  match n with
  | O => ret Next
  | S k =>
      bind body (fun r =>
        match r with
        | Next => for_range k body
        | Return a => ret (Return a)
        end)
  end.

End Embedding.

Declare Scope py_scope.
Delimit Scope py_scope with py.
Notation "x <- m ;; k" := (bind m (fun x => k))
  (at level 61, m at next level, right associativity) : py_scope.
Notation "m ;; k" := (bind m (fun _ => k))
  (at level 61, right associativity) : py_scope.
Local Open Scope py_scope.

(* ===================================================================== *)
(** ** The single-call primitive and the request functions *)
(* ===================================================================== *)

Section Requests.

Context `{RT : Runtime}.
Import Str.

(** [temp_sleep]: a pause, no other effect. *)
Definition temp_sleep : M unit := ret tt.

(** The f-string [completion_prompt] of [_gpt5_nano_complete]. *)
Definition completion_prompt (prompt : string) : string :=
  "Complete the following text exactly where it left off. " ++ nl
  ++ nl
  ++ "IMPORTANT RULES:" ++ nl
  ++ "1. Do NOT repeat the person's name if it's already in the prompt" ++ nl
  ++ "2. Do NOT include schedule entry IDs like [(ID:...)]" ++ nl
  ++ "3. Do NOT add explanations or commentary" ++ nl
  ++ "4. Provide only the activity description that continues the sentence" ++ nl
  ++ nl
  ++ "Text to complete:" ++ nl
  ++ prompt.

Definition primary_request (prompt : string) (max_output_tokens : pyval)
  : Request :=
  {| model := "gpt-5-nano";
     content := completion_prompt prompt;
     max_completion_tokens := Some max_output_tokens;
     max_tokens := None;
     temperature := None;
     stop := None |}.

Definition fallback_request (prompt : string) (max_output_tokens stop : pyval)
  : Request :=
  {| model := "gpt-4o-mini";
     content := completion_prompt prompt;
     max_completion_tokens := None;
     max_tokens := Some max_output_tokens;
     temperature := Some 0;
     stop := Some stop |}.

(** [content and content.strip()] *)
Definition has_text (c : option string) : bool :=
  match c with
  | Some s => truthy s && truthy (strip s)
  | None => false
  end.

Definition text_of (c : option string) : string :=
  match c with
  | Some s => strip s
  | None => EmptyString
  end.

(** [_gpt5_nano_complete(prompt, max_output_tokens, stop)].  The inner
    [try] gives [Some] text when it returns from the function and [None]
    when control goes on to the fallback. *)
Definition _gpt5_nano_complete (prompt : string) (max_output_tokens stop : pyval)
  : M string :=
  try_except
    (first <-
       try_except
         (c <- create (primary_request prompt max_output_tokens) ;;
          if has_text c then ret (Some (text_of c)) else ret None)
         (fun _ => ret None) ;;
     match first with
     | Some text => ret text
     | None =>
         c <- create (fallback_request prompt max_output_tokens stop) ;;
         if has_text c then ret (text_of c) else ret EmptyString
     end)
    (fun _ => ret "ChatGPT ERROR").

(** [ChatGPT_single_request(prompt)] *)
Definition ChatGPT_single_request (prompt : string) : M string :=
  log (Requested "ChatGPT_single_request") ;;
  temp_sleep ;;
  _gpt5_nano_complete prompt (PyInt 100) PyNone.

(** [GPT4_request(prompt)] *)
Definition GPT4_request (prompt : string) : M string :=
  log (Requested "GPT4_request") ;;
  temp_sleep ;;
  try_except
    (_gpt5_nano_complete prompt (PyInt 200) PyNone)
    (fun _ => ret "ChatGPT ERROR").

(** [ChatGPT_request(prompt)] *)
Definition ChatGPT_request (prompt : string) : M string :=
  log (Requested "ChatGPT_request") ;;
  try_except
    (_gpt5_nano_complete prompt (PyInt 200) PyNone)
    (fun _ => ret "ChatGPT ERROR").

(** [GPT_request(prompt, gpt_parameter)] *)
Definition GPT_request (prompt : string) (gpt_parameter : pyval) : M string :=
  log (Requested "GPT_request") ;;
  temp_sleep ;;
  try_except
    (max_output_tokens <- lift (py_get gpt_parameter "max_tokens" (PyInt 50)) ;;
     stop <- lift (py_get gpt_parameter "stop" PyNone) ;;
     _gpt5_nano_complete prompt max_output_tokens stop)
    (fun _ => ret "TOKEN LIMIT EXCEEDED").

End Requests.

(* ===================================================================== *)
(** ** The four retry loops *)
(* ===================================================================== *)

(** [func_validate(candidate, prompt=prompt)]: the truth value of what it
    returns, or the exception it raises. *)
Definition validator : Type := pyval -> string -> result bool.

(** [func_clean_up(candidate, prompt=prompt)] *)
Definition cleaner : Type := pyval -> string -> result pyval.

Section Requesters.

Context `{RT : Runtime}.
Import Str.

(** The prompt [GPT4_safe_generate_response] sends; [example_output] is
    a [str], on which [str()] is the identity. *)
Definition GPT4_prompt (prompt example_output special_instruction : string)
  : string :=
  ("GPT-3 Prompt:" ++ nl ++ dq ++ dq ++ dq ++ nl ++ prompt ++ nl
     ++ dq ++ dq ++ dq ++ nl)
  ++ ("Output the response to the prompt above in json. "
        ++ special_instruction ++ nl)
  ++ ("Example output json:" ++ nl)
  ++ ("{" ++ dq ++ "output" ++ dq ++ ": " ++ dq ++ example_output ++ dq ++ "}").

(** The prompt [ChatGPT_safe_generate_response] sends. *)
Definition ChatGPT_prompt (prompt example_output special_instruction : string)
  : string :=
  (dq ++ dq ++ dq ++ nl ++ prompt ++ nl ++ dq ++ dq ++ dq ++ nl)
  ++ ("Output the response to the prompt above in json. "
        ++ special_instruction ++ nl)
  ++ ("Example output json:" ++ nl)
  ++ ("{" ++ dq ++ "output" ++ dq ++ ": " ++ dq ++ example_output ++ dq ++ "}").

(** [curr_gpt_response[:curr_gpt_response.rfind('}') + 1]] *)
Definition through_last_brace (s : string) : string :=
  let end_index := rfind "}" s + 1 in
  slice_to s end_index.

(** The body of the loop of [GPT4_safe_generate_response]; [prompt] is
    the prompt already built. *)
Definition GPT4_safe_generate_response_attempt
    (prompt : string) (func_validate : validator) (func_clean_up : cleaner)
  : M (flow pyval) :=
  try_except
    (response <- GPT4_request prompt ;;
     let curr_gpt_response := strip response in
     let curr_gpt_response := through_last_brace curr_gpt_response in
     document <- lift (json_loads curr_gpt_response) ;;
     curr_gpt_response <- lift (py_getitem document "output") ;;
     ok <- lift (func_validate curr_gpt_response prompt) ;;
     if ok : bool then
       r <- lift (func_clean_up curr_gpt_response prompt) ;; ret (Return r)
     else ret Next)
    (fun _ => ret Next).

Definition GPT4_safe_generate_response
    (prompt example_output special_instruction : string)
    (repeat : Z) (fail_safe_response : pyval)
    (func_validate : validator) (func_clean_up : cleaner) (verbose : bool)
  : M pyval :=
  let prompt := GPT4_prompt prompt example_output special_instruction in
  r <- for_range (Z.to_nat repeat)
         (GPT4_safe_generate_response_attempt prompt func_validate func_clean_up) ;;
  match r with
  | Return v => ret v
  | Next => ret (PyBool false)
  end.

(** The body of the loop of [ChatGPT_safe_generate_response]. *)
Definition ChatGPT_safe_generate_response_attempt
    (prompt : string) (func_validate : validator) (func_clean_up : cleaner)
  : M (flow pyval) :=
  try_except
    (response <- ChatGPT_request prompt ;;
     let curr_gpt_response := strip response in
     let curr_gpt_response := through_last_brace curr_gpt_response in
     document <- lift (json_loads curr_gpt_response) ;;
     curr_gpt_response <- lift (py_getitem document "output") ;;
     ok <- lift (func_validate curr_gpt_response prompt) ;;
     if ok : bool then
       r <- lift (func_clean_up curr_gpt_response prompt) ;; ret (Return r)
     else ret Next)
    (fun _ => ret Next).

Definition ChatGPT_safe_generate_response
    (prompt example_output special_instruction : string)
    (repeat : Z) (fail_safe_response : pyval)
    (func_validate : validator) (func_clean_up : cleaner) (verbose : bool)
  : M pyval :=
  let prompt := ChatGPT_prompt prompt example_output special_instruction in
  r <- for_range (Z.to_nat repeat)
         (ChatGPT_safe_generate_response_attempt prompt func_validate func_clean_up) ;;
  match r with
  | Return v => ret v
  | Next => ret (PyBool false)
  end.

(** The body of the loop of [ChatGPT_safe_generate_response_OLD]. *)
Definition ChatGPT_safe_generate_response_OLD_attempt
    (prompt : string) (func_validate : validator) (func_clean_up : cleaner)
  : M (flow pyval) :=
  try_except
    (response <- ChatGPT_request prompt ;;
     let curr_gpt_response := PyStr (strip response) in
     ok <- lift (func_validate curr_gpt_response prompt) ;;
     if ok : bool then
       r <- lift (func_clean_up curr_gpt_response prompt) ;; ret (Return r)
     else ret Next)
    (fun _ => ret Next).

Definition ChatGPT_safe_generate_response_OLD
    (prompt : string) (repeat : Z) (fail_safe_response : pyval)
    (func_validate : validator) (func_clean_up : cleaner) (verbose : bool)
  : M pyval :=
  r <- for_range (Z.to_nat repeat)
         (ChatGPT_safe_generate_response_OLD_attempt prompt func_validate func_clean_up) ;;
  match r with
  | Return v => ret v
  | Next => ret fail_safe_response
  end.

(** The strings [safe_generate_response] takes for an error response. *)
Definition error_responses : list string :=
  ["TOKEN LIMIT EXCEEDED"; "ChatGPT ERROR"].

(** The body of the loop of [safe_generate_response]: no [try] here. *)
Definition safe_generate_response_attempt
    (prompt : string) (gpt_parameter : pyval)
    (func_validate : validator) (func_clean_up : cleaner)
  : M (flow pyval) :=
  curr_gpt_response <- GPT_request prompt gpt_parameter ;;
  if elem curr_gpt_response error_responses then ret Next
  else
    ok <- lift (func_validate (PyStr curr_gpt_response) prompt) ;;
    if ok : bool then
      r <- lift (func_clean_up (PyStr curr_gpt_response) prompt) ;;
      ret (Return r)
    else ret Next.

Definition safe_generate_response
    (prompt : string) (gpt_parameter : pyval)
    (repeat : Z) (fail_safe_response : pyval)
    (func_validate : validator) (func_clean_up : cleaner) (verbose : bool)
  : M pyval :=
  r <- for_range (Z.to_nat repeat)
         (safe_generate_response_attempt prompt gpt_parameter
            func_validate func_clean_up) ;;
  match r with
  | Return v => ret v
  | Next => ret fail_safe_response
  end.

End Requesters.

(* ===================================================================== *)
(** ** The four loops under one name *)
(* ===================================================================== *)

(** Which retry loop, with the arguments only that loop takes. *)
Inductive variant : Type :=
| Safe (gpt_parameter : pyval)
| ChatGPT (example_output special_instruction : string)
| GPT4 (example_output special_instruction : string)
| ChatGPT_OLD.

Section Variants.

Context `{RT : Runtime}.
Import Str.

Definition requester (v : variant) (prompt : string) (repeat : Z)
    (fail_safe_response : pyval) (func_validate : validator)
    (func_clean_up : cleaner) (verbose : bool) : M pyval :=
  match v with
  | Safe gpt_parameter =>
      safe_generate_response prompt gpt_parameter repeat
        fail_safe_response func_validate func_clean_up verbose
  | ChatGPT example_output special_instruction =>
      ChatGPT_safe_generate_response prompt example_output
        special_instruction repeat fail_safe_response func_validate
        func_clean_up verbose
  | GPT4 example_output special_instruction =>
      GPT4_safe_generate_response prompt example_output
        special_instruction repeat fail_safe_response func_validate
        func_clean_up verbose
  | ChatGPT_OLD =>
      ChatGPT_safe_generate_response_OLD prompt repeat fail_safe_response
        func_validate func_clean_up verbose
  end.

(** The prompt the loop sends and hands to the validator and the
    cleanup. *)
Definition sent_prompt (v : variant) (prompt : string) : string :=
  match v with
  | Safe _ | ChatGPT_OLD => prompt
  | ChatGPT example_output special_instruction =>
      ChatGPT_prompt prompt example_output special_instruction
  | GPT4 example_output special_instruction =>
      GPT4_prompt prompt example_output special_instruction
  end.

(** The transport call of one attempt. *)
Definition request (v : variant) (prompt : string) : M string :=
  match v with
  | Safe gpt_parameter => GPT_request prompt gpt_parameter
  | GPT4 _ _ => GPT4_request (sent_prompt v prompt)
  | ChatGPT _ _ | ChatGPT_OLD => ChatGPT_request (sent_prompt v prompt)
  end.

(** One round of the loop. *)
Definition attempt (v : variant) (prompt : string)
    (func_validate : validator) (func_clean_up : cleaner) : M (flow pyval) :=
  match v with
  | Safe gpt_parameter =>
      safe_generate_response_attempt prompt gpt_parameter
        func_validate func_clean_up
  | ChatGPT _ _ =>
      ChatGPT_safe_generate_response_attempt (sent_prompt v prompt)
        func_validate func_clean_up
  | GPT4 _ _ =>
      GPT4_safe_generate_response_attempt (sent_prompt v prompt)
        func_validate func_clean_up
  | ChatGPT_OLD =>
      ChatGPT_safe_generate_response_OLD_attempt prompt
        func_validate func_clean_up
  end.

(** What the loop returns once [range(repeat)] is used up. *)
Definition exhaustion_value (v : variant) (fail_safe_response : pyval) : pyval :=
  match v with
  | Safe _ | ChatGPT_OLD => fail_safe_response
  | ChatGPT _ _ | GPT4 _ _ => PyBool false
  end.

(** Whether the loop body sits in a [try] with a bare [except]. *)
Definition guarded (v : variant) : bool :=
  match v with
  | Safe _ => false
  | _ => true
  end.

(** The candidate an attempt hands to the validator for the response
    text [t], when it gets that far. *)
Definition candidate (v : variant) (t : string) : option pyval :=
  match v with
  | Safe _ =>
      if elem t error_responses then None else Some (PyStr t)
  | ChatGPT_OLD => Some (PyStr (strip t))
  | ChatGPT _ _ | GPT4 _ _ =>
      match json_loads (through_last_brace (strip t)) with
      | inr document =>
          match py_getitem document "output" with
          | inr c => Some c
          | inl _ => None
          end
      | inl _ => None
      end
  end.

(** How an attempt ends once its request has returned the text [t]:
    stated from the candidate, the validator and the cleanup alone. *)
Definition attempt_outcome (v : variant) (prompt : string)
    (func_validate : validator) (func_clean_up : cleaner) (t : string)
  : result (flow pyval) :=
  match candidate v t with
  | None => Ok Next
  | Some c =>
      match func_validate c (sent_prompt v prompt) with
      | inl e => if guarded v then Ok Next else Raise e
      | inr false => Ok Next
      | inr true =>
          match func_clean_up c (sent_prompt v prompt) with
          | inl e => if guarded v then Ok Next else Raise e
          | inr r => Ok (Return r)
          end
      end
  end.

(** The client raises at every call. *)
Definition always_raises : Prop :=
  forall r w, exists e w', chat_completions_create r w = (Raises e, w').

(** [n] attempts in a row, each ending without a returned value, lead
    from the first state to the second. *)
Inductive rounds {A} (body : M (flow A))
  : nat -> State world -> State world -> Prop :=
| rounds_done st : rounds body O st st
| rounds_more n st st1 st2 :
    body st = (Ok Next, st1) ->
    rounds body n st1 st2 ->
    rounds body (S n) st st2.

End Variants.

(** Whether the loop decodes the response as JSON. *)
Definition decodes_json (v : variant) : bool :=
  match v with
  | ChatGPT _ _ | GPT4 _ _ => true
  | Safe _ | ChatGPT_OLD => false
  end.

(** The name under which a loop's request function enters the trace. *)
Definition request_name (v : variant) : string :=
  match v with
  | Safe _ => "GPT_request"
  | GPT4 _ _ => "GPT4_request"
  | ChatGPT _ _ | ChatGPT_OLD => "ChatGPT_request"
  end.

(** [max_output_tokens] and [stop] as the loop's request function passes
    them to the primitive; [None] when [gpt_parameter.get] raises. *)
Definition request_arguments (v : variant) : option (pyval * pyval) :=
  match v with
  | Safe gpt_parameter =>
      match py_get gpt_parameter "max_tokens" (PyInt 50),
            py_get gpt_parameter "stop" PyNone with
      | inr m, inr s => Some (m, s)
      | _, _ => None
      end
  | _ => Some (PyInt 200, PyNone)
  end.

(** Whether the answer of the primary model ends the call: it did not
    raise and its content is not blank. *)
Definition answered (o : Outcome) : bool :=
  match o with
  | Content c => has_text c
  | Raises _ => false
  end.

Definition answer_text (o : Outcome) : string :=
  match o with
  | Content c => text_of c
  | Raises _ => EmptyString
  end.

(** What [_gpt5_nano_complete] returns once the fallback has answered
    with [o]. *)
Definition fallback_text (o : Outcome) : string :=
  match o with
  | Content c => if has_text c then text_of c else EmptyString
  | Raises _ => "ChatGPT ERROR"
  end.

(* ===================================================================== *)
(** ** Test doubles *)
(* ===================================================================== *)

(** A client whose answer depends on the request and on how many calls it
    has served; JSON text is decoded by [Json.loads]. *)
Definition stub (answer : Request -> nat -> Outcome) : Runtime :=
  {| world := nat;
     chat_completions_create := fun r n => (answer r n, S n);
     json_loads := Json.loads |}.

(** A run starts with an empty trace. *)
Definition start (RT : Runtime) (w : @world RT) : State (@world RT) :=
  {| remote := w; trace := [] |}.

(** Every call raises. *)
Definition down : Runtime := stub (fun _ _ => Raises (APIError "down")).

(** Every call answers with the same text. *)
Definition always (text : string) : Runtime :=
  stub (fun _ _ => Content (Some text)).


(** The client answers its calls from a script, then raises. *)
Definition scripted (script : list Outcome) : Runtime :=
  stub (fun _ n => nth n script (Raises (APIError "end of script"))).

Definition accept_all : validator := fun _ _ => Ok true.
Definition reject_all : validator := fun _ _ => Ok false.

(** Accepts any non-empty string. *)
Definition accept_non_empty : validator :=
  fun c _ =>
    match c with
    | PyStr s => Ok (Str.truthy s)
    | _ => Ok false
    end.

(** Returns its candidate. *)
Definition keep : cleaner := fun c _ => Ok c.

(** [candidate["output"]] *)
Definition extract_output : cleaner := fun c _ => py_getitem c "output".

(** [json.loads(candidate)["output"]]; [json.loads] takes text. *)
Definition decode_output : cleaner :=
  fun c _ =>
    match c with
    | PyStr s =>
        match Json.loads s with
        | inr document => py_getitem document "output"
        | inl e => Raise e
        end
    | _ => Raise TypeError
    end.

(** [__func_validate(gpt_response)] of the [__main__] block. *)
Definition __func_validate (gpt_response : string) : bool :=
  if (Z.of_nat (String.length (Str.strip gpt_response)) <=? 1) then false
  else if Str.contains_char " " (Str.strip gpt_response) then false
  else true.

(** [__func_clean_up(gpt_response)] of the [__main__] block. *)
Definition __func_clean_up (gpt_response : string) : string :=
  Str.strip gpt_response.

(** A function of one positional parameter called as the loops call
    their validator and cleanup, [f(candidate, prompt=prompt)]: it has no
    parameter [prompt], so the call raises [TypeError] before the body
    runs. *)
Definition without_prompt_parameter {A B : Type} (f : A -> B)
  : pyval -> string -> result B :=
  fun _ _ => Raise TypeError.

(** The two functions of [__main__] as [safe_generate_response] calls
    them. *)
Definition main_func_validate : validator :=
  without_prompt_parameter __func_validate.
Definition main_func_clean_up : cleaner :=
  without_prompt_parameter (fun s => PyStr (__func_clean_up s)).

(** The text [{"output": "ok"}]. *)
Definition output_ok : string :=
  "{" ++ Str.dq ++ "output" ++ Str.dq ++ ": " ++ Str.dq ++ "ok" ++ Str.dq ++ "}".

(** The answer has the key ["result"] instead of ["output"]. *)
Definition result_ok : string :=
  "{" ++ Str.dq ++ "result" ++ Str.dq ++ ": " ++ Str.dq ++ "ok" ++ Str.dq
  ++ "} done".

(** The dictionary [gpt_parameter] of the [__main__] block. *)
Definition main_gpt_parameter : pyval :=
  PyDict [("engine", PyStr "gpt-5-nano"); ("max_tokens", PyInt 50);
          ("temperature", PyInt 0); ("top_p", PyInt 1);
          ("stream", PyBool false); ("frequency_penalty", PyInt 0);
          ("presence_penalty", PyInt 0); ("stop", PyList [PyStr Str.dq])].

(** The client of the scenario of the specification: the text
    [{"output": "ok"}] at the second attempt only, the empty string at the
    first and the third, where the empty answer of the primary model makes
    the primitive ask the secondary one, which answers alike. *)
Definition answers_at_second_attempt : Runtime :=
  scripted [Content (Some EmptyString); Content (Some EmptyString);
            Content (Some output_ok);
            Content (Some EmptyString); Content (Some EmptyString)].

(* ===================================================================== *)
(** ** Searching, replacing and splitting *)
(* ===================================================================== *)

Module StrOps.

(** [s.startswith(p)] *)
Fixpoint startswith (p s : string) : bool :=
  match p, s with
  | EmptyString, _ => true
  | String a p', String b s' => Ascii.eqb a b && startswith p' s'
  | String _ _, EmptyString => false
  end.

(** [s[n:]] for [n >= 0] *)
Fixpoint drop (n : nat) (s : string) : string :=
  match n, s with
  | S k, String _ r => drop k r
  | _, _ => s
  end.

(** [sub in s] *)
Fixpoint contains (sub s : string) : bool :=
  startswith sub s
  || match s with
     | String _ r => contains sub r
     | EmptyString => false
     end.

(** The scan of [s.replace(old, new)] for a non-empty [old]: occurrences
    are taken from left to right and do not overlap; [skip] counts the
    characters of the occurrence just replaced that are still ahead. *)
Fixpoint replace_scan (old new : string) (skip : nat) (s : string) : string :=
  match s with
  | EmptyString => EmptyString
  | String c r =>
      match skip with
      | S k => replace_scan old new k r
      | O =>
          if startswith old s
          then new ++ replace_scan old new (String.length old - 1) r
          else String c (replace_scan old new 0 r)
      end
  end.

(** [s.replace("", new)]: [new] before every character and at the end. *)
Fixpoint interleave (new s : string) : string :=
  match s with
  | EmptyString => new
  | String c r => new ++ String c (interleave new r)
  end.

(** [s.replace(old, new)] *)
Definition replace (old new s : string) : string :=
  match old with
  | EmptyString => interleave new s
  | String _ _ => replace_scan old new 0 s
  end.

(** The scan of [s.split(sep)] for a non-empty [sep]; the list it gives
    is never empty. *)
Fixpoint split_scan (sep : string) (skip : nat) (s : string) : list string :=
  match s with
  | EmptyString => [EmptyString]
  | String c r =>
      match skip with
      | S k => split_scan sep k r
      | O =>
          if startswith sep s
          then EmptyString :: split_scan sep (String.length sep - 1) r
          else
            match split_scan sep 0 r with
            | piece :: rest => String c piece :: rest
            | [] => [String c EmptyString]
            end
      end
  end.

(** Whether no proper non-empty end of [sep] is also a start of [sep]:
    two occurrences of such a [sep] cannot overlap. *)
Definition borderless (sep : string) : bool :=
  forallb (fun j => negb (startswith (drop j sep) sep))
    (seq 1 (String.length sep - 1)).

(** [s.split(sep)]: an empty separator is a [ValueError]. *)
Definition split (sep s : string) : result (list string) :=
  match sep with
  | EmptyString => Raise ValueError
  | String _ _ => Ok (split_scan sep 0 s)
  end.

End StrOps.

(* ===================================================================== *)
(** ** Prompt templates and embeddings *)
(* ===================================================================== *)

(** The argument [curr_input] of [generate_prompt]: one [str], or a list
    of them, on which [str(i)] is the identity. *)
Inductive prompt_input : Type :=
| One (s : string)
| Many (l : list string).

(** [f"{count}"] for a count of [enumerate]. *)
Definition decimal (count : nat) : string :=
  NilEmpty.string_of_uint (Nat.to_uint count).

(** [f"!<INPUT {count}>!"] *)
Definition placeholder (count : nat) : string :=
  "!<INPUT " ++ decimal count ++ ">!".

(** [for count, i in enumerate(curr_input): prompt = prompt.replace(...)],
    from the count [count] on. *)
Fixpoint fill_inputs (count : nat) (curr_input : list string) (prompt : string)
  : string :=
  match curr_input with
  | [] => prompt
  | i :: rest =>
      fill_inputs (S count) rest (StrOps.replace (placeholder count) i prompt)
  end.

Definition comment_block_marker : string :=
  "<commentblockmarker>###</commentblockmarker>".

(** [generate_prompt(curr_input, prompt_lib_file)], from the point where
    the file has been read: [file_text] is what [f.read()] returned. *)
Definition generate_prompt (curr_input : prompt_input) (file_text : string)
  : result string :=
  let curr_input :=
    match curr_input with
    | One s => [s]
    | Many l => l
    end in
  let prompt := fill_inputs 0 curr_input file_text in
  if StrOps.contains comment_block_marker prompt then
    match StrOps.split comment_block_marker prompt with
    | inl e => Raise e
    | inr parts =>
        match nth_error parts 1 with
        | Some part => Ok (Str.strip part)
        | None => Raise IndexError
        end
    end
  else Ok (Str.strip prompt).

(** The text [get_embedding] sends: new lines become spaces, and the
    empty text becomes ["this is blank"]. *)
Definition embedding_input (text : string) : string :=
  let text := StrOps.replace Str.nl " " text in
  if Str.truthy text then text else "this is blank".

(** The embeddings endpoint, [client.embeddings.create(input=, model=)]:
    it raises or gives the list [data] of the embeddings. *)
Class Embedder `{RT : Runtime} : Type := {
  embedding : Type;
  embeddings_create :
    list string -> string -> world -> result (list embedding) * world
}.

(** [get_embedding(text, model)]: [...data[0].embedding], with no [try]
    around the call. *)
Definition get_embedding `{E : Embedder} (text model : string) : M embedding :=
  fun st =>
    let (r, w) := embeddings_create [embedding_input text] model (remote st) in
    let st' := {| remote := w; trace := trace st |} in
    match r with
    | inl e => (Raise e, st')
    | inr (first :: _) => (Ok first, st')
    | inr [] => (Raise IndexError, st')
    end.

(** An endpoint that gives back the texts it is sent as their
    embeddings. *)
Definition echo (RT : Runtime) : @Embedder RT :=
  {| embedding := string;
     embeddings_create := fun input _ w => (Ok input, w) |}.

(** What a client call made on behalf of a loop looks like: it carries
    the completion prompt built around the prompt of the loop and goes to
    one of the two models. *)
Definition made_for (v : variant) (prompt : string) (q : Request) : Prop :=
  content q = completion_prompt (sent_prompt v prompt)
  /\ (model q = "gpt-5-nano" \/ model q = "gpt-4o-mini").

(* ===================================================================== *)
(** ** The request functions under errors that are not [Exception]s *)
(* ===================================================================== *)

(** The embedding above knows instances of [Exception] only.  This module
    embeds [_gpt5_nano_complete] and the request functions once more, for
    a client that may also raise another [BaseException]
    ([KeyboardInterrupt], [SystemExit], ...): there the handlers
    [except Exception] of the primitive and the bare [except] of the
    request functions differ. *)
Module Interrupt.

(** What is raised: an instance of [Exception], or another
    [BaseException], given by its name. *)
Inductive raised : Type :=
| Exc (e : exn)
| Base (name : string).

(** What one call to the client gives. *)
Inductive Reply : Type :=
| Fails (r : raised)
| Answers (c : option string).

(** The chat-completion client, as a machine with a state of its own. *)
Class Client : Type := {
  machine : Type;
  completions_create : Request -> machine -> Reply * machine
}.

Section Embedding.

Context `{CL : Client}.

Definition M (A : Type) : Type :=
  State machine -> (raised + A) * State machine.

Definition ret {A} (a : A) : M A := fun st => (inr a, st).

Definition bind {A B} (m : M A) (k : A -> M B) : M B :=
  fun st =>
    match m st with
    | (inr a, st') => k a st'
    | (inl r, st') => (inl r, st')
    end.

(** [try: m  except Exception: h]: another [BaseException] goes
    through. *)
Definition try_except_Exception {A} (m : M A) (h : exn -> M A) : M A :=
  fun st =>
    match m st with
    | (inr a, st') => (inr a, st')
    | (inl (Exc e), st') => h e st'
    | (inl (Base name), st') => (inl (Base name), st')
    end.

(** [try: m  except: h]: the bare handler takes everything. *)
Definition try_except {A} (m : M A) (h : raised -> M A) : M A :=
  fun st =>
    match m st with
    | (inr a, st') => (inr a, st')
    | (inl r, st') => h r st'
    end.

(** A computation without effects; what it raises is an [Exception]. *)
Definition lift {A} (r : result A) : M A :=
  fun st =>
    match r with
    | inr a => (inr a, st)
    | inl e => (inl (Exc e), st)
    end.

Definition log (e : event) : M unit :=
  fun st => (inr tt, {| remote := remote st; trace := trace st ++ [e] |}).

Definition create (r : Request) : M (option string) :=
  fun st =>
    let (o, w) := completions_create r (remote st) in
    let st' := {| remote := w; trace := trace st ++ [Created r] |} in
    match o with
    | Fails x => (inl x, st')
    | Answers c => (inr c, st')
    end.

Definition temp_sleep : M unit := ret tt.

(** [_gpt5_nano_complete(prompt, max_output_tokens, stop)] *)
Definition _gpt5_nano_complete (prompt : string) (max_output_tokens stop : pyval)
  : M string :=
  try_except_Exception
    (bind
       (try_except_Exception
          (bind (create (primary_request prompt max_output_tokens))
             (fun c => if has_text c then ret (Some (text_of c)) else ret None))
          (fun _ => ret None))
       (fun first =>
          match first with
          | Some text => ret text
          | None =>
              bind (create (fallback_request prompt max_output_tokens stop))
                (fun c => if has_text c then ret (text_of c)
                          else ret EmptyString)
          end))
    (fun _ => ret "ChatGPT ERROR").

(** [ChatGPT_single_request(prompt)] *)
Definition ChatGPT_single_request (prompt : string) : M string :=
  bind (log (Requested "ChatGPT_single_request")) (fun _ =>
  bind temp_sleep (fun _ =>
  _gpt5_nano_complete prompt (PyInt 100) PyNone)).

(** [GPT4_request(prompt)] *)
Definition GPT4_request (prompt : string) : M string :=
  bind (log (Requested "GPT4_request")) (fun _ =>
  bind temp_sleep (fun _ =>
  try_except
    (_gpt5_nano_complete prompt (PyInt 200) PyNone)
    (fun _ => ret "ChatGPT ERROR"))).

(** [ChatGPT_request(prompt)] *)
Definition ChatGPT_request (prompt : string) : M string :=
  bind (log (Requested "ChatGPT_request")) (fun _ =>
  try_except
    (_gpt5_nano_complete prompt (PyInt 200) PyNone)
    (fun _ => ret "ChatGPT ERROR")).

(** [GPT_request(prompt, gpt_parameter)] *)
Definition GPT_request (prompt : string) (gpt_parameter : pyval) : M string :=
  bind (log (Requested "GPT_request")) (fun _ =>
  bind temp_sleep (fun _ =>
  try_except
    (bind (lift (py_get gpt_parameter "max_tokens" (PyInt 50)))
       (fun max_output_tokens =>
     bind (lift (py_get gpt_parameter "stop" PyNone))
       (fun stop =>
     _gpt5_nano_complete prompt max_output_tokens stop)))
    (fun _ => ret "TOKEN LIMIT EXCEEDED"))).

End Embedding.

(** Whether the reply of the primary model ends the call with its
    text. *)
Definition answered (o : Reply) : bool :=
  match o with
  | Answers c => has_text c
  | Fails _ => false
  end.

(** A runtime of the embedding above as a client: what it raises is an
    [Exception]. *)
Definition of_runtime (RT : Runtime) : Client :=
  {| machine := @world RT;
     completions_create := fun r w =>
       match @chat_completions_create RT r w with
       | (Raises e, w') => (Fails (Exc e), w')
       | (Content c, w') => (Answers c, w')
       end |}.

(** A client that is interrupted at every call. *)
Definition interrupted : Client :=
  {| machine := nat;
     completions_create := fun _ n => (Fails (Base "KeyboardInterrupt"), S n) |}.

(** A client whose primary model gives no text and whose secondary model
    is interrupted. *)
Definition interrupted_at_fallback : Client :=
  {| machine := nat;
     completions_create := fun r n =>
       if String.eqb (model r) "gpt-5-nano"
       then (Answers (Some EmptyString), S n)
       else (Fails (Base "KeyboardInterrupt"), S n) |}.

End Interrupt.

(* ===================================================================== *)
(** ** Strings: slicing through the last brace *)
(* ===================================================================== *)

Module StrFacts.
Import Str.

Lemma rfind_lower c s : -1 <= rfind c s.
Proof.
  induction s as [|d r IH]; simpl; [lia|].
  destruct (0 <=? rfind c r) eqn:E; [apply Z.leb_le in E; lia|].
  destruct (Ascii.eqb d c); lia.
Qed.

Lemma rfind_absent c s : contains_char c s = false -> rfind c s = -1.
Proof.
  induction s as [|d r IH]; simpl; [reflexivity|].
  intros H. apply orb_false_iff in H as [Hd Hr].
  rewrite (IH Hr), Hd. reflexivity.
Qed.

Lemma rfind_present c s : contains_char c s = true -> 0 <= rfind c s.
Proof.
  induction s as [|d r IH]; simpl; [discriminate|].
  intros H. destruct (0 <=? rfind c r) eqn:E.
  - apply Z.leb_le in E. lia.
  - destruct (Ascii.eqb d c) eqn:Ed; [lia|].
    simpl in H. apply IH in H. apply Z.leb_gt in E. lia.
Qed.

(** Without a closing brace the slice is empty. *)
Lemma through_last_brace_absent s :
  contains_char "}" s = false -> through_last_brace s = EmptyString.
Proof.
  intros H. unfold through_last_brace. rewrite (rfind_absent _ _ H).
  reflexivity.
Qed.

Lemma take_split c s :
  contains_char c s = true ->
  exists head rest,
    s = (head ++ String c EmptyString) ++ rest
    /\ contains_char c rest = false
    /\ take (Z.to_nat (rfind c s + 1)) s = head ++ String c EmptyString.
Proof.
  induction s as [|d r IH]; simpl; [discriminate|].
  intros H. destruct (contains_char c r) eqn:Hr.
  - destruct (IH eq_refl) as (head & rest & Hs & Hrest & Htake).
    pose proof (rfind_present c r Hr) as Hpos.
    apply Z.leb_le in Hpos as Hleb. rewrite Hleb.
    exists (String d head), rest. repeat split.
    + simpl. f_equal. exact Hs.
    + exact Hrest.
    + replace (Z.to_nat (rfind c r + 1 + 1)) with (S (Z.to_nat (rfind c r + 1)))
        by lia.
      simpl. f_equal. exact Htake.
  - rewrite orb_false_r in H. rewrite (rfind_absent _ _ Hr). simpl.
    rewrite H. apply Ascii.eqb_eq in H. subst d.
    exists EmptyString, r. repeat split; assumption.
Qed.

(** With a closing brace the slice is the text up to and including the
    last one. *)
Lemma through_last_brace_present s :
  contains_char "}" s = true ->
  exists head rest,
    s = through_last_brace s ++ rest
    /\ through_last_brace s = head ++ "}"
    /\ contains_char "}" rest = false.
Proof.
  intros H. destruct (take_split _ _ H) as (head & rest & Hs & Hrest & Htake).
  pose proof (rfind_present _ _ H) as Hpos.
  exists head, rest. unfold through_last_brace, slice_to.
  destruct (rfind "}" s + 1 <? 0) eqn:E; [apply Z.ltb_lt in E; lia|].
  rewrite Htake. repeat split; assumption.
Qed.

End StrFacts.

(* ===================================================================== *)
(** ** What one request does *)
(* ===================================================================== *)


Section RequestFacts.

Context `{RT : Runtime}.

Lemma transport_calls_app t u :
  transport_calls (t ++ u) = (transport_calls t + transport_calls u)%nat.
Proof.
  induction t as [|[f|q] t IH]; simpl; rewrite ?IH; reflexivity.
Qed.

Lemma client_calls_app t u :
  client_calls (t ++ u) = (client_calls t ++ client_calls u)%list.
Proof.
  induction t as [|[f|q] t IH]; simpl; rewrite ?IH; reflexivity.
Qed.

(** The primitive as a function of the two answers of the client. *)
Lemma _gpt5_nano_complete_run prompt m s st :
  _gpt5_nano_complete prompt m s st =
  let (o1, w1) := chat_completions_create (primary_request prompt m) (remote st) in
  let t1 := (trace st ++ [Created (primary_request prompt m)])%list in
  if answered o1 then (Ok (answer_text o1), {| remote := w1; trace := t1 |})
  else
    let (o2, w2) := chat_completions_create (fallback_request prompt m s) w1 in
    (Ok (fallback_text o2),
     {| remote := w2;
        trace := (t1 ++ [Created (fallback_request prompt m s)])%list |}).
Proof.
  unfold _gpt5_nano_complete, try_except, bind, create, ret. simpl.
  destruct (chat_completions_create (primary_request prompt m) (remote st))
    as [o1 w1].
  destruct o1 as [e|c]; simpl.
  - destruct (chat_completions_create (fallback_request prompt m s) w1)
      as [o2 w2].
    destruct o2 as [e2|c2]; simpl; [reflexivity|].
    destruct (has_text c2); reflexivity.
  - destruct (has_text c); simpl; [reflexivity|].
    destruct (chat_completions_create (fallback_request prompt m s) w1)
      as [o2 w2].
    destruct o2 as [e2|c2]; simpl; [reflexivity|].
    destruct (has_text c2); reflexivity.
Qed.

(** The primitive returns a text, whatever the client does, and makes
    no transport-level entry in the trace. *)
Lemma _gpt5_nano_complete_returns prompt m s st :
  exists text st',
    _gpt5_nano_complete prompt m s st = (Ok text, st')
    /\ transport_calls (trace st') = transport_calls (trace st).
Proof.
  rewrite _gpt5_nano_complete_run.
  destruct (chat_completions_create (primary_request prompt m) (remote st))
    as [o1 w1].
  destruct (answered o1).
  - eexists _, _. split; [reflexivity|]. simpl.
    rewrite transport_calls_app. simpl. lia.
  - destruct (chat_completions_create (fallback_request prompt m s) w1)
      as [o2 w2].
    eexists _, _. split; [reflexivity|]. simpl.
    rewrite !transport_calls_app. simpl. lia.
Qed.

(** Each request function returns a text and counts as one transport
    call. *)
Lemma ChatGPT_request_returns prompt st :
  exists text st',
    ChatGPT_request prompt st = (Ok text, st')
    /\ transport_calls (trace st') = S (transport_calls (trace st)).
Proof.
  unfold ChatGPT_request, bind, log, try_except.
  set (st1 := {| remote := remote st;
                 trace := (trace st ++ [Requested "ChatGPT_request"])%list |}).
  destruct (_gpt5_nano_complete_returns prompt (PyInt 200) PyNone st1)
    as (text & st' & Hrun & Hcalls).
  rewrite Hrun. exists text, st'. split; [reflexivity|].
  rewrite Hcalls. subst st1. simpl. rewrite transport_calls_app. simpl. lia.
Qed.

Lemma GPT4_request_returns prompt st :
  exists text st',
    GPT4_request prompt st = (Ok text, st')
    /\ transport_calls (trace st') = S (transport_calls (trace st)).
Proof.
  unfold GPT4_request, temp_sleep, bind, log, try_except, ret.
  set (st1 := {| remote := remote st;
                 trace := (trace st ++ [Requested "GPT4_request"])%list |}).
  destruct (_gpt5_nano_complete_returns prompt (PyInt 200) PyNone st1)
    as (text & st' & Hrun & Hcalls).
  rewrite Hrun. exists text, st'. split; [reflexivity|].
  rewrite Hcalls. subst st1. simpl. rewrite transport_calls_app. simpl. lia.
Qed.

Lemma GPT_request_returns prompt gpt_parameter st :
  exists text st',
    GPT_request prompt gpt_parameter st = (Ok text, st')
    /\ transport_calls (trace st') = S (transport_calls (trace st)).
Proof.
  unfold GPT_request, temp_sleep, bind, log, try_except, ret, lift.
  set (st1 := {| remote := remote st;
                 trace := (trace st ++ [Requested "GPT_request"])%list |}).
  assert (Hst1 : transport_calls (trace st1) = S (transport_calls (trace st))).
  { subst st1. simpl. rewrite transport_calls_app. simpl. lia. }
  destruct (py_get gpt_parameter "max_tokens" (PyInt 50)) as [e|m].
  { eexists _, _. split; [reflexivity|]. exact Hst1. }
  destruct (py_get gpt_parameter "stop" PyNone) as [e|s].
  { eexists _, _. split; [reflexivity|]. exact Hst1. }
  destruct (_gpt5_nano_complete_returns prompt m s st1)
    as (text & st' & Hrun & Hcalls).
  rewrite Hrun. exists text, st'. split; [reflexivity|]. congruence.
Qed.

Lemma request_returns v prompt st :
  exists text st',
    request v prompt st = (Ok text, st')
    /\ transport_calls (trace st') = S (transport_calls (trace st)).
Proof.
  destruct v; simpl.
  - apply GPT_request_returns.
  - apply ChatGPT_request_returns.
  - apply GPT4_request_returns.
  - apply ChatGPT_request_returns.
Qed.

End RequestFacts.

(* ===================================================================== *)
(** ** What one attempt does *)
(* ===================================================================== *)

Section AttemptFacts.

Context `{RT : Runtime}.


(** An attempt is its request followed by [attempt_outcome]; the state
    it leaves is the one the request left. *)
Lemma attempt_run v prompt func_validate func_clean_up st t st1 :
  request v prompt st = (Ok t, st1) ->
  attempt v prompt func_validate func_clean_up st =
  (attempt_outcome v prompt func_validate func_clean_up t, st1).
Proof.
  intros Hreq. unfold attempt_outcome.
  destruct v as [gp|eo si|eo si|];
    cbn [attempt request candidate sent_prompt guarded] in *;
    [ unfold safe_generate_response_attempt
    | unfold ChatGPT_safe_generate_response_attempt
    | unfold GPT4_safe_generate_response_attempt
    | unfold ChatGPT_safe_generate_response_OLD_attempt ];
    unfold try_except, bind, lift, ret, Ok, Raise in *; rewrite Hreq.
  - destruct (Str.elem t error_responses); [reflexivity|].
    destruct (func_validate (PyStr t) prompt) as [e|[|]]; try reflexivity.
    destruct (func_clean_up (PyStr t) prompt) as [e|r]; reflexivity.
  - destruct (json_loads (through_last_brace (Str.strip t))) as [e|d];
      [reflexivity|].
    destruct (py_getitem d "output") as [e|c]; [reflexivity|].
    destruct (func_validate c _) as [e|[|]]; try reflexivity.
    destruct (func_clean_up c _) as [e|r]; reflexivity.
  - destruct (json_loads (through_last_brace (Str.strip t))) as [e|d];
      [reflexivity|].
    destruct (py_getitem d "output") as [e|c]; [reflexivity|].
    destruct (func_validate c _) as [e|[|]]; try reflexivity.
    destruct (func_clean_up c _) as [e|r]; reflexivity.
  - destruct (func_validate (PyStr (Str.strip t)) prompt) as [e|[|]];
      try reflexivity.
    destruct (func_clean_up (PyStr (Str.strip t)) prompt) as [e|r];
      reflexivity.
Qed.

(** Whatever its outcome, an attempt makes exactly one transport call. *)
Lemma attempt_one_call v prompt func_validate func_clean_up st r st' :
  attempt v prompt func_validate func_clean_up st = (r, st') ->
  transport_calls (trace st') = S (transport_calls (trace st)).
Proof.
  destruct (request_returns v prompt st) as (t & st1 & Hreq & Hcalls).
  rewrite (attempt_run _ _ _ _ _ _ _ Hreq). intros H.
  injection H as _ <-. exact Hcalls.
Qed.

(** A guarded attempt never raises. *)
Lemma guarded_attempt_returns v prompt func_validate func_clean_up st :
  guarded v = true ->
  exists f st', attempt v prompt func_validate func_clean_up st = (Ok f, st').
Proof.
  intros Hg.
  destruct (request_returns v prompt st) as (t & st1 & Hreq & _).
  rewrite (attempt_run _ _ _ _ _ _ _ Hreq). unfold attempt_outcome.
  rewrite Hg.
  destruct (candidate v t) as [c|]; [|eexists _, _; reflexivity].
  destruct (func_validate c _) as [e|[|]]; try (eexists _, _; reflexivity).
  destruct (func_clean_up c _) as [e|r]; eexists _, _; reflexivity.
Qed.

End AttemptFacts.

(* ===================================================================== *)
(** ** The loop *)
(* ===================================================================== *)

Section LoopFacts.

Context `{RT : Runtime}.
Context {A : Type}.
Variable body : M (flow A).

(** Rounds that all end without a value use up the range. *)
Lemma for_range_rounds n st st' :
  rounds body n st st' -> for_range n body st = (Ok Next, st').
Proof.
  induction 1 as [st|n st st1 st2 Hbody _ IH]; simpl; [reflexivity|].
  unfold bind. rewrite Hbody. exact IH.
Qed.

(** ...and a range used up means that every round ended so. *)
Lemma rounds_for_range n : forall st st',
  for_range n body st = (Ok Next, st') -> rounds body n st st'.
Proof.
  induction n as [|n IH]; simpl; intros st st' H.
  - unfold ret in H. injection H as <-. constructor.
  - unfold bind in H. destruct (body st) as [[e|[|a]] st1] eqn:Hbody.
    + discriminate.
    + econstructor; [exact Hbody|]. apply IH. exact H.
    + discriminate.
Qed.

(** The loop ends at the first round that returns a value. *)
Lemma for_range_return k n st st1 a st2 :
  rounds body k st st1 ->
  body st1 = (Ok (Return a), st2) ->
  (k < n)%nat ->
  for_range n body st = (Ok (Return a), st2).
Proof.
  intros Hrounds. revert n.
  induction Hrounds as [st|k st st1 st3 Hbody _ IH]; intros n Hret Hlt.
  - destruct n as [|n]; [lia|]. simpl. unfold bind. rewrite Hret. reflexivity.
  - destruct n as [|n]; [lia|]. simpl. unfold bind. rewrite Hbody.
    apply IH; [exact Hret | lia].
Qed.

(** ...and at the first round that raises. *)
Lemma for_range_raise k n st st1 e st2 :
  rounds body k st st1 ->
  body st1 = (Raise e, st2) ->
  (k < n)%nat ->
  for_range n body st = (Raise e, st2).
Proof.
  intros Hrounds. revert n.
  induction Hrounds as [st|k st st1 st3 Hbody _ IH]; intros n Hret Hlt.
  - destruct n as [|n]; [lia|]. simpl. unfold bind. rewrite Hret. reflexivity.
  - destruct n as [|n]; [lia|]. simpl. unfold bind. rewrite Hbody.
    apply IH; [exact Hret | lia].
Qed.

(** A body that never raises makes a loop that never raises. *)
Lemma for_range_returns n :
  (forall st, exists f st', body st = (Ok f, st')) ->
  forall st, exists f st', for_range n body st = (Ok f, st').
Proof.
  intros Hbody. induction n as [|n IH]; intros st; simpl.
  - eexists _, _. reflexivity.
  - unfold bind. destruct (Hbody st) as ([|a] & st1 & H1); rewrite H1.
    + apply IH.
    + eexists _, _. reflexivity.
Qed.

End LoopFacts.

Section RunFacts.

Context `{RT : Runtime}.

(** Every loop is [for_range] over its attempt, then the value
    returned or the exhaustion value. *)
Lemma requester_run v prompt repeat fail_safe func_validate func_clean_up
    verbose st :
  requester v prompt repeat fail_safe func_validate func_clean_up verbose st =
  match for_range (Z.to_nat repeat)
          (attempt v prompt func_validate func_clean_up) st with
  | (inr (Return r), st') => (Ok r, st')
  | (inr Next, st') => (Ok (exhaustion_value v fail_safe), st')
  | (inl e, st') => (Raise e, st')
  end.
Proof.
  destruct v; simpl;
    [ unfold safe_generate_response
    | unfold ChatGPT_safe_generate_response
    | unfold GPT4_safe_generate_response
    | unfold ChatGPT_safe_generate_response_OLD ];
    unfold bind;
    match goal with
    | |- context [for_range ?n ?b st] =>
        destruct (for_range n b st) as [[e|[|r]] st']
    end; reflexivity.
Qed.

(** Rounds add up their transport calls. *)
Lemma rounds_calls v prompt func_validate func_clean_up n st st' :
  rounds (attempt v prompt func_validate func_clean_up) n st st' ->
  transport_calls (trace st') = (transport_calls (trace st) + n)%nat.
Proof.
  induction 1 as [st|n st st1 st2 Hbody _ IH]; [lia|].
  apply attempt_one_call in Hbody. lia.
Qed.

End RunFacts.

(* ===================================================================== *)
(** ** Exhaustion and exceptions *)
(* ===================================================================== *)


(** Proves [rounds body n st st'] on closed terms by running the loop. *)
Ltac run_rounds := apply rounds_for_range; vm_compute; reflexivity.

(** C1, as the code has it: when every one of the [repeat] attempts ends
    without a validated result, [safe_generate_response] and
    [ChatGPT_safe_generate_response_OLD] return the caller's
    [fail_safe_response], while [ChatGPT_safe_generate_response] and
    [GPT4_safe_generate_response] return [False]; this is
    [exhaustion_value].  The state left is the one after the last
    attempt. *)
Theorem exhausted_loop_returns_exhaustion_value `{RT : Runtime}
    v prompt repeat fail_safe func_validate func_clean_up verbose st st' :
  rounds (attempt v prompt func_validate func_clean_up) (Z.to_nat repeat) st st' ->
  requester v prompt repeat fail_safe func_validate func_clean_up verbose st
  = (Ok (exhaustion_value v fail_safe), st')
  /\ exhaustion_value v fail_safe
     = match v with
       | Safe _ | ChatGPT_OLD => fail_safe
       | ChatGPT _ _ | GPT4 _ _ => PyBool false
       end.
Proof.
  intros Hrounds. split; [|reflexivity].
  rewrite requester_run, (for_range_rounds _ _ _ _ Hrounds). reflexivity.
Qed.

Lemma exhausted_loop_returns_exhaustion_value_witness :
  exists st',
    rounds (attempt (RT := down) (Safe main_gpt_parameter) "p" accept_all keep)
      (Z.to_nat 2) (start down 0%nat) st'
    /\ requester (RT := down) (Safe main_gpt_parameter) "p" 2 (PyStr "rest")
         accept_all keep false (start down 0%nat)
       = (Ok (PyStr "rest"), st').
Proof.
  eexists. split.
  2: { apply (exhausted_loop_returns_exhaustion_value (RT := down)
                (Safe main_gpt_parameter) "p" 2 (PyStr "rest") accept_all keep
                false (start down 0%nat)).
       change (Z.to_nat 2) with 2%nat. run_rounds. }
  change (Z.to_nat 2) with 2%nat. run_rounds.
Defined.

(** C1 fails as stated: with a client that is down, the one attempt of
    [ChatGPT_safe_generate_response] ends without a validated result and
    the call returns [False], not the fail-safe value ["error"]. *)
Lemma ChatGPT_loop_ignores_fail_safe :
  exists st',
    rounds (attempt (RT := down) (ChatGPT "e" "i") "p" accept_all keep) 1
      (start down 0%nat) st'
    /\ ChatGPT_safe_generate_response (RT := down) "p" "e" "i" 1 (PyStr "error")
         accept_all keep false (start down 0%nat)
       = (Ok (PyBool false), st')
    /\ PyBool false <> PyStr "error".
Proof.
  eexists. split; [run_rounds|]. split; [vm_compute; reflexivity|discriminate].
Qed.

(** A loop whose body is guarded returns, whatever the validator and the
    cleanup raise. *)
Lemma guarded_requester_returns `{RT : Runtime}
    v prompt repeat fail_safe func_validate func_clean_up verbose st :
  guarded v = true ->
  exists r st',
    requester v prompt repeat fail_safe func_validate func_clean_up verbose st
    = (Ok r, st').
Proof.
  intros Hg. rewrite requester_run.
  destruct (for_range_returns
              (attempt v prompt func_validate func_clean_up) (Z.to_nat repeat)
              (fun s => guarded_attempt_returns v prompt func_validate
                          func_clean_up s Hg) st)
    as ([|r] & st' & Hloop); rewrite Hloop; eexists _, _; reflexivity.
Qed.

(** [safe_generate_response] has no [try]: an exception of the validator
    on a response that is not an error string leaves the call. *)
Lemma safe_generate_response_propagates `{RT : Runtime}
    prompt gpt_parameter repeat fail_safe func_validate func_clean_up verbose
    st t st1 e :
  0 < repeat ->
  GPT_request prompt gpt_parameter st = (Ok t, st1) ->
  Str.elem t error_responses = false ->
  func_validate (PyStr t) prompt = Raise e ->
  safe_generate_response prompt gpt_parameter repeat fail_safe func_validate
    func_clean_up verbose st = (Raise e, st1).
Proof.
  intros Hpos Hreq Hok Hval.
  pose proof (requester_run (Safe gpt_parameter) prompt repeat fail_safe
                func_validate func_clean_up verbose st) as Hrun.
  cbn [requester] in Hrun. rewrite Hrun.
  rewrite (for_range_raise _ 0 (Z.to_nat repeat) st st e st1);
    [reflexivity | constructor | | lia].
  rewrite (attempt_run (Safe gpt_parameter) _ _ _ _ _ _ Hreq).
  unfold attempt_outcome. cbn [candidate guarded sent_prompt].
  rewrite Hok, Hval. reflexivity.
Qed.

(** C2 does not hold of [safe_generate_response]: run as in the
    [__main__] block, with its validator and cleanup and a model that
    answers ["driving"], the call raises [TypeError] at the first
    attempt. *)
Theorem safe_generate_response_raises_in_main :
  exists st',
    safe_generate_response (RT := always "driving") "p" main_gpt_parameter 5
      (PyStr "rest") main_func_validate main_func_clean_up true
      (start (always "driving") 0%nat)
    = (Raise TypeError, st')
    /\ transport_calls (trace st') = 1%nat.
Proof.
  eexists. split; vm_compute; reflexivity.
Qed.

(** C10: with [repeat <= 0] the loop body never runs: each loop returns
    its exhaustion value and leaves the state, and so the trace of calls,
    as it found it. *)
Theorem non_positive_repeat_makes_no_call `{RT : Runtime}
    v prompt repeat fail_safe func_validate func_clean_up verbose st :
  repeat <= 0 ->
  requester v prompt repeat fail_safe func_validate func_clean_up verbose st
  = (Ok (exhaustion_value v fail_safe), st)
  /\ exhaustion_value v fail_safe
     = match v with
       | Safe _ | ChatGPT_OLD => fail_safe
       | ChatGPT _ _ | GPT4 _ _ => PyBool false
       end.
Proof.
  intros Hle. split; [|reflexivity].
  rewrite requester_run.
  replace (Z.to_nat repeat) with O by lia. reflexivity.
Qed.

Lemma non_positive_repeat_makes_no_call_witness :
  (-1 <= 0)
  /\ requester (RT := always "driving") (Safe main_gpt_parameter) "p" (-1)
       (PyStr "rest") accept_all keep false (start (always "driving") 0%nat)
     = (Ok (PyStr "rest"), start (always "driving") 0%nat)
  /\ requester (RT := always "driving") (ChatGPT "e" "i") "p" 0
       (PyStr "rest") accept_all keep false (start (always "driving") 0%nat)
     = (Ok (PyBool false), start (always "driving") 0%nat).
Proof.
  split; [lia|]. split.
  - apply (non_positive_repeat_makes_no_call (RT := always "driving")
             (Safe main_gpt_parameter) "p" (-1) (PyStr "rest") accept_all keep
             false (start (always "driving") 0%nat)). lia.
  - apply (non_positive_repeat_makes_no_call (RT := always "driving")
             (ChatGPT "e" "i") "p" 0 (PyStr "rest") accept_all keep
             false (start (always "driving") 0%nat)). lia.
Defined.

(* ===================================================================== *)
(** ** Bounded attempts and short-circuit *)
(* ===================================================================== *)

Section FailingClient.

Context `{RT : Runtime}.


Lemma _gpt5_nano_complete_down prompt m s st :
  always_raises ->
  exists st', _gpt5_nano_complete prompt m s st = (Ok "ChatGPT ERROR", st').
Proof.
  intros Hdown. rewrite _gpt5_nano_complete_run.
  destruct (Hdown (primary_request prompt m) (remote st)) as (e1 & w1 & H1).
  rewrite H1. simpl.
  destruct (Hdown (fallback_request prompt m s) w1) as (e2 & w2 & H2).
  rewrite H2. simpl. eexists. reflexivity.
Qed.

(** With the client down every request returns one of the two error
    strings; [ChatGPT_request] and [GPT4_request] return
    ["ChatGPT ERROR"]. *)
Lemma request_down v prompt st :
  always_raises ->
  exists t st',
    request v prompt st = (Ok t, st')
    /\ Str.elem t error_responses = true
    /\ (guarded v = true -> t = "ChatGPT ERROR").
Proof.
  intros Hdown.
  destruct v as [gp|eo si|eo si|]; cbn [request guarded].
  - unfold GPT_request, temp_sleep, bind, log, try_except, ret, lift.
    destruct (py_get gp "max_tokens" (PyInt 50)) as [e|m].
    { eexists _, _. split; [reflexivity|]. split; [reflexivity|discriminate]. }
    destruct (py_get gp "stop" PyNone) as [e|s].
    { eexists _, _. split; [reflexivity|]. split; [reflexivity|discriminate]. }
    match goal with
    | |- context [_gpt5_nano_complete ?p ?a ?b ?x] =>
        destruct (_gpt5_nano_complete_down p a b x Hdown) as (st' & H)
    end.
    rewrite H. eexists _, _. split; [reflexivity|].
    split; [reflexivity|discriminate].
  - unfold ChatGPT_request, bind, log, try_except.
    match goal with
    | |- context [_gpt5_nano_complete ?p ?a ?b ?x] =>
        destruct (_gpt5_nano_complete_down p a b x Hdown) as (st' & H)
    end.
    rewrite H. eexists _, _. split; [reflexivity|].
    split; reflexivity.
  - unfold GPT4_request, temp_sleep, bind, log, try_except, ret.
    match goal with
    | |- context [_gpt5_nano_complete ?p ?a ?b ?x] =>
        destruct (_gpt5_nano_complete_down p a b x Hdown) as (st' & H)
    end.
    rewrite H. eexists _, _. split; [reflexivity|].
    split; reflexivity.
  - unfold ChatGPT_request, bind, log, try_except.
    match goal with
    | |- context [_gpt5_nano_complete ?p ?a ?b ?x] =>
        destruct (_gpt5_nano_complete_down p a b x Hdown) as (st' & H)
    end.
    rewrite H. eexists _, _. split; [reflexivity|].
    split; reflexivity.
Qed.

(** With the client down an attempt ends without a value, provided the
    old loop's validator does not accept the error string. *)
Lemma attempt_down v prompt func_validate func_clean_up st :
  always_raises ->
  json_loads EmptyString = Raise JSONDecodeError ->
  (v = ChatGPT_OLD ->
   func_validate (PyStr "ChatGPT ERROR") prompt <> Ok true) ->
  exists st', attempt v prompt func_validate func_clean_up st = (Ok Next, st').
Proof.
  intros Hdown Hempty Hold.
  destruct (request_down v prompt st Hdown) as (t & st' & Hreq & Helem & Ht).
  exists st'. rewrite (attempt_run _ _ _ _ _ _ _ Hreq).
  unfold attempt_outcome.
  destruct v as [gp|eo si|eo si|]; cbn [candidate guarded sent_prompt].
  - rewrite Helem. reflexivity.
  - rewrite (Ht eq_refl).
    change (through_last_brace (Str.strip "ChatGPT ERROR")) with EmptyString.
    rewrite Hempty. reflexivity.
  - rewrite (Ht eq_refl).
    change (through_last_brace (Str.strip "ChatGPT ERROR")) with EmptyString.
    rewrite Hempty. reflexivity.
  - rewrite (Ht eq_refl).
    change (Str.strip "ChatGPT ERROR") with "ChatGPT ERROR".
    specialize (Hold eq_refl).
    destruct (func_validate (PyStr "ChatGPT ERROR") prompt) as [e|[|]];
      [reflexivity | exfalso; apply Hold; reflexivity | reflexivity].
Qed.

Lemma rounds_down v prompt func_validate func_clean_up n :
  always_raises ->
  json_loads EmptyString = Raise JSONDecodeError ->
  (v = ChatGPT_OLD ->
   func_validate (PyStr "ChatGPT ERROR") prompt <> Ok true) ->
  forall st,
  exists st', rounds (attempt v prompt func_validate func_clean_up) n st st'.
Proof.
  intros Hdown Hempty Hold. induction n as [|n IH]; intros st.
  - exists st. constructor.
  - destruct (attempt_down v prompt func_validate func_clean_up st
                Hdown Hempty Hold) as (st1 & H1).
    destruct (IH st1) as (st2 & H2).
    exists st2. econstructor; eassumption.
Qed.

End FailingClient.

(** C3, as the code has it: with [repeat = N > 0] and a client that
    raises at every call, each loop makes exactly [N] transport calls and
    then returns its exhaustion value: the fail-safe value for
    [safe_generate_response], [False] for
    [ChatGPT_safe_generate_response] and [GPT4_safe_generate_response],
    and the fail-safe value for [ChatGPT_safe_generate_response_OLD] when
    its validator does not accept the error string ["ChatGPT ERROR"],
    which that loop hands to it.  [json.loads] is taken to reject the
    empty text. *)
Theorem failing_transport_uses_up_the_range `{RT : Runtime}
    v prompt N fail_safe func_validate func_clean_up verbose st :
  always_raises ->
  json_loads EmptyString = Raise JSONDecodeError ->
  0 < N ->
  (v = ChatGPT_OLD -> func_validate (PyStr "ChatGPT ERROR") prompt <> Ok true) ->
  exists st',
    requester v prompt N fail_safe func_validate func_clean_up verbose st
    = (Ok (exhaustion_value v fail_safe), st')
    /\ Z.of_nat (transport_calls (trace st'))
       = Z.of_nat (transport_calls (trace st)) + N.
Proof.
  intros Hdown Hempty Hpos Hold.
  destruct (rounds_down v prompt func_validate func_clean_up (Z.to_nat N)
              Hdown Hempty Hold st) as (st' & Hrounds).
  exists st'. split.
  - rewrite requester_run, (for_range_rounds _ _ _ _ Hrounds). reflexivity.
  - rewrite (rounds_calls _ _ _ _ _ _ _ Hrounds). lia.
Qed.

Lemma down_always_raises : always_raises (RT := down).
Proof. intros r w. eexists _, _. reflexivity. Defined.

Lemma failing_transport_uses_up_the_range_witness :
  always_raises (RT := down)
  /\ json_loads (Runtime := down) EmptyString = Raise JSONDecodeError
  /\ 0 < 3
  /\ (forall v,
      v = ChatGPT_OLD -> reject_all (PyStr "ChatGPT ERROR") "p" <> Ok true)
  /\ forall v,
     exists st',
       requester (RT := down) v "p" 3 (PyStr "error") reject_all keep false
         (start down 0%nat)
       = (Ok (exhaustion_value v (PyStr "error")), st')
       /\ Z.of_nat (transport_calls (trace st')) = 0 + 3.
Proof.
  split; [exact down_always_raises|].
  split; [reflexivity|].
  split; [lia|].
  split; [intros v _; discriminate|].
  intros v.
  apply (failing_transport_uses_up_the_range (RT := down) v "p" 3
           (PyStr "error") reject_all keep false (start down 0%nat)
           down_always_raises eq_refl).
  - lia.
  - intros _. discriminate.
Defined.

(** C3 fails as stated: with the client down and [repeat = 3],
    [ChatGPT_safe_generate_response] makes its 3 transport calls and
    returns [False], not the fail-safe value; and
    [ChatGPT_safe_generate_response_OLD], with a validator that accepts
    any non-empty string, returns the error string after 1 transport
    call. *)
Lemma failing_transport_other_returns :
  (exists st',
     ChatGPT_safe_generate_response (RT := down) "p" "e" "i" 3 (PyStr "error")
       accept_non_empty keep false (start down 0%nat)
     = (Ok (PyBool false), st')
     /\ transport_calls (trace st') = 3%nat
     /\ PyBool false <> PyStr "error")
  /\ (exists st',
        ChatGPT_safe_generate_response_OLD (RT := down) "p" 3 (PyStr "error")
          accept_non_empty keep false (start down 0%nat)
        = (Ok (PyStr "ChatGPT ERROR"), st')
        /\ transport_calls (trace st') = 1%nat
        /\ PyStr "ChatGPT ERROR" <> PyStr "error").
Proof.
  split; eexists; (split; [vm_compute; reflexivity|]);
    (split; [vm_compute; reflexivity|discriminate]).
Qed.






(* ===================================================================== *)
(** ** The fallback inside one request *)
(* ===================================================================== *)


Section Fallback.

Context `{RT : Runtime}.

Lemma calls_to_app m t u :
  calls_to m (t ++ u) = (calls_to m t ++ calls_to m u)%list.
Proof. unfold calls_to. rewrite client_calls_app. apply filter_app. Qed.

(** A request logs its name, then runs the primitive, unless reading
    [gpt_parameter] fails. *)
Lemma request_run v prompt st :
  request v prompt st =
  let st1 := {| remote := remote st;
                trace := (trace st ++ [Requested (request_name v)])%list |} in
  match request_arguments v with
  | Some (m, s) => _gpt5_nano_complete (sent_prompt v prompt) m s st1
  | None => (Ok "TOKEN LIMIT EXCEEDED", st1)
  end.
Proof.
  destruct v as [gp|eo si|eo si|];
    cbn [request request_arguments request_name sent_prompt];
    [ unfold GPT_request | unfold ChatGPT_request | unfold GPT4_request
    | unfold ChatGPT_request ];
    unfold temp_sleep, bind, log, try_except, ret, lift; cbv zeta;
    try destruct (py_get gp "max_tokens" (PyInt 50)) as [e|m];
    try reflexivity;
    try destruct (py_get gp "stop" PyNone) as [e|s];
    try reflexivity;
    match goal with
    | |- context [_gpt5_nano_complete ?p ?a ?b ?x] =>
        destruct (_gpt5_nano_complete_returns p a b x) as (text & st' & H & _);
        rewrite H; reflexivity
    end.
Qed.


End Fallback.



(* ===================================================================== *)
(** ** The scenario of the specification *)
(* ===================================================================== *)

(** C6, as the code has it: in the scenario ([repeat = 3], the text
    [{"output": "ok"}] at attempt 2 only, a validator that accepts any
    non-empty string), [ChatGPT_safe_generate_response] takes the
    ["output"] field out of the response itself, before the validator
    runs; with a cleanup that returns the candidate it is given, the call
    returns ["ok"] after exactly 2 transport calls.  The client is called
    3 times: the empty answer of attempt 1 sends the primitive to the
    secondary model. *)
Theorem scenario_returns_ok prompt example_output special_instruction
    fail_safe verbose :
  exists st',
    ChatGPT_safe_generate_response (RT := answers_at_second_attempt)
      prompt example_output special_instruction 3 fail_safe
      accept_non_empty keep verbose (start answers_at_second_attempt 0%nat)
    = (Ok (PyStr "ok"), st')
    /\ transport_calls (trace st') = 2%nat
    /\ length (client_calls (trace st')) = 3%nat.
Proof.
  eexists. split; [vm_compute; reflexivity|].
  split; vm_compute; reflexivity.
Qed.

(** C6 fails as stated: a cleanup that extracts the ["output"] field is
    handed the string ["ok"], from which there is nothing to extract,
    whether it subscripts the candidate ([TypeError]) or decodes it first
    ([JSONDecodeError]); the exception is caught, attempt 3 gets the empty
    string, and the call returns [False] after 3 transport calls. *)
Lemma scenario_with_extracting_cleanup :
  (exists st',
     ChatGPT_safe_generate_response (RT := answers_at_second_attempt)
       "p" "e" "i" 3 (PyStr "error") accept_non_empty extract_output false
       (start answers_at_second_attempt 0%nat)
     = (Ok (PyBool false), st')
     /\ transport_calls (trace st') = 3%nat)
  /\ (exists st',
        ChatGPT_safe_generate_response (RT := answers_at_second_attempt)
          "p" "e" "i" 3 (PyStr "error") accept_non_empty decode_output false
          (start answers_at_second_attempt 0%nat)
        = (Ok (PyBool false), st')
        /\ transport_calls (trace st') = 3%nat)
  /\ extract_output (PyStr "ok") (ChatGPT_prompt "p" "e" "i") = Raise TypeError
  /\ decode_output (PyStr "ok") (ChatGPT_prompt "p" "e" "i")
     = Raise JSONDecodeError.
Proof.
  split; [|split; [|split]].
  - eexists. split; vm_compute; reflexivity.
  - eexists. split; vm_compute; reflexivity.
  - reflexivity.
  - vm_compute. reflexivity.
Qed.

(** The scenario as written does hold of the loop that hands the raw
    response to the validator and the cleanup:
    [ChatGPT_safe_generate_response_OLD] with the decoding cleanup returns
    ["ok"] after 2 transport calls. *)
Lemma scenario_in_old_loop :
  exists st',
    ChatGPT_safe_generate_response_OLD (RT := answers_at_second_attempt)
      "p" 3 (PyStr "error") accept_non_empty decode_output false
      (start answers_at_second_attempt 0%nat)
    = (Ok (PyStr "ok"), st')
    /\ transport_calls (trace st') = 2%nat.
Proof.
  eexists. split; vm_compute; reflexivity.
Qed.

(* ===================================================================== *)
(** ** Empty responses *)
(* ===================================================================== *)

Module StripFacts.
Import Str.

Lemma rstrip_idempotent s : rstrip (rstrip s) = rstrip s.
Proof.
  induction s as [|c r IH]; [reflexivity|].
  simpl. destruct (rstrip r) as [|d r1] eqn:Hr.
  - destruct (isspace c) eqn:Hc; [reflexivity|]. simpl. rewrite Hc. reflexivity.
  - change (rstrip (String c (String d r1)))
      with (match rstrip (String d r1) with
            | EmptyString =>
                if isspace c then EmptyString else String c EmptyString
            | String d2 r2 => String c (String d2 r2)
            end).
    rewrite IH. reflexivity.
Qed.

Lemma lstrip_head c r : isspace c = false -> lstrip (String c r) = String c r.
Proof. intros H. simpl. rewrite H. reflexivity. Qed.

(** What [lstrip] returns is empty or starts with a character that is
    not a space. *)
Lemma lstrip_shape s :
  lstrip s = EmptyString
  \/ exists c r, lstrip s = String c r /\ isspace c = false.
Proof.
  induction s as [|c r IH]; [left; reflexivity|].
  simpl. destruct (isspace c) eqn:Hc; [exact IH|].
  right. exists c, r. split; [reflexivity|exact Hc].
Qed.

Lemma rstrip_head c r :
  isspace c = false -> exists r1, rstrip (String c r) = String c r1.
Proof.
  intros Hc. simpl. destruct (rstrip r) as [|d r1].
  - rewrite Hc. exists EmptyString. reflexivity.
  - exists (String d r1). reflexivity.
Qed.

(** [s.strip().strip() == s.strip()] *)
Lemma strip_idempotent s : strip (strip s) = strip s.
Proof.
  unfold strip. destruct (lstrip_shape s) as [H|(c & r & H & Hc)]; rewrite H.
  - reflexivity.
  - destruct (rstrip_head c r Hc) as (r1 & Hr). rewrite Hr.
    rewrite (lstrip_head c r1 Hc), <- Hr. apply rstrip_idempotent.
Qed.

End StripFacts.

Section EmptyResponses.

Context `{RT : Runtime}.

Lemma text_of_stripped c : Str.strip (text_of c) = text_of c.
Proof. destruct c as [s|]; [apply StripFacts.strip_idempotent|reflexivity]. Qed.

(** The text a request returns carries no white space around it. *)
Lemma request_text_stripped v prompt st t st1 :
  request v prompt st = (Ok t, st1) -> Str.strip t = t.
Proof.
  rewrite request_run. cbv zeta.
  destruct (request_arguments v) as [[m s]|].
  - rewrite _gpt5_nano_complete_run. cbn [remote trace].
    destruct (chat_completions_create _ _) as [o1 w1].
    destruct (answered o1) eqn:H1.
    + intros H. injection H as <- _.
      destruct o1 as [e|c]; [discriminate|]. apply text_of_stripped.
    + destruct (chat_completions_create _ w1) as [o2 w2].
      intros H. injection H as <- _.
      destruct o2 as [e|c]; [reflexivity|]. simpl.
      destruct (has_text c); [apply text_of_stripped|reflexivity].
  - intros H. injection H as <- _. reflexivity.
Qed.

(** A blank response is the empty string. *)
Lemma blank_response_is_empty v prompt st t st1 :
  request v prompt st = (Ok t, st1) ->
  Str.strip t = EmptyString -> t = EmptyString.
Proof.
  intros Hreq Hblank. rewrite <- (request_text_stripped _ _ _ _ _ Hreq).
  exact Hblank.
Qed.

End EmptyResponses.


(** C7, as the code has it: when the request of an attempt returns empty
    or blank text (it is then the empty string),
    [ChatGPT_safe_generate_response] and [GPT4_safe_generate_response]
    fail the attempt at [json.loads], whatever the validator, which gets
    no candidate; [safe_generate_response] and
    [ChatGPT_safe_generate_response_OLD] hand the empty string to the
    validator and do what it says: the attempt returns the cleanup's
    result if it accepts, and ends without a value if it rejects.
    [json.loads] is taken to reject the empty text. *)
Theorem empty_response_attempt `{RT : Runtime}
    v prompt func_validate func_clean_up st t st1 :
  json_loads EmptyString = Raise JSONDecodeError ->
  request v prompt st = (Ok t, st1) ->
  Str.strip t = EmptyString ->
  t = EmptyString
  /\ if decodes_json v
     then candidate v t = None
          /\ attempt v prompt func_validate func_clean_up st = (Ok Next, st1)
     else candidate v t = Some (PyStr EmptyString)
          /\ (forall r,
                func_validate (PyStr EmptyString) prompt = Ok true ->
                func_clean_up (PyStr EmptyString) prompt = Ok r ->
                attempt v prompt func_validate func_clean_up st
                = (Ok (Return r), st1))
          /\ (func_validate (PyStr EmptyString) prompt = Ok false ->
              attempt v prompt func_validate func_clean_up st = (Ok Next, st1)).
Proof.
  intros Hempty Hreq Hblank.
  pose proof (blank_response_is_empty _ _ _ _ _ Hreq Hblank) as Ht.
  split; [exact Ht|]. subst t.
  rewrite (attempt_run _ _ func_validate func_clean_up _ _ _ Hreq).
  unfold attempt_outcome.
  destruct v as [gp|eo si|eo si|];
    cbn [decodes_json candidate guarded sent_prompt].
  - change (Str.elem EmptyString error_responses) with false. cbv iota.
    split; [reflexivity|]. split.
    + intros r Hval Hclean. rewrite Hval, Hclean. reflexivity.
    + intros Hval. rewrite Hval. reflexivity.
  - change (through_last_brace (Str.strip EmptyString)) with EmptyString.
    rewrite Hempty. split; reflexivity.
  - change (through_last_brace (Str.strip EmptyString)) with EmptyString.
    rewrite Hempty. split; reflexivity.
  - change (Str.strip EmptyString) with EmptyString.
    split; [reflexivity|]. split.
    + intros r Hval Hclean. rewrite Hval, Hclean. reflexivity.
    + intros Hval. rewrite Hval. reflexivity.
Qed.

Lemma empty_response_attempt_witness :
  (attempt (RT := always "  ") (ChatGPT "e" "i") "p" accept_all keep
     (start (always "  ") 0%nat)
   = (Ok Next,
      snd (request (RT := always "  ") (ChatGPT "e" "i") "p"
             (start (always "  ") 0%nat))))
  /\ (attempt (RT := always "  ") (Safe main_gpt_parameter) "p" accept_all keep
        (start (always "  ") 0%nat)
      = (Ok (Return (PyStr EmptyString)),
         snd (request (RT := always "  ") (Safe main_gpt_parameter) "p"
                (start (always "  ") 0%nat)))).
Proof.
  split.
  - apply (empty_response_attempt (RT := always "  ") (ChatGPT "e" "i") "p"
             accept_all keep (start (always "  ") 0%nat) EmptyString);
      vm_compute; reflexivity.
  - apply (empty_response_attempt (RT := always "  ")
             (Safe main_gpt_parameter) "p"
             accept_all keep (start (always "  ") 0%nat) EmptyString);
      vm_compute; reflexivity.
Defined.

(** C7 fails as stated: when both models answer with the empty string,
    [safe_generate_response] hands the empty candidate to the validator,
    and with a validator that accepts it the call succeeds with the
    empty string at the first attempt. *)
Lemma empty_candidate_reaches_validator :
  exists st',
    safe_generate_response (RT := always EmptyString) "p" main_gpt_parameter 5
      (PyStr "rest") accept_all keep false (start (always EmptyString) 0%nat)
    = (Ok (PyStr EmptyString), st')
    /\ transport_calls (trace st') = 1%nat
    /\ safe_generate_response (RT := always EmptyString) "p" main_gpt_parameter 5
         (PyStr "rest") reject_all keep false (start (always EmptyString) 0%nat)
       <> (Ok (PyStr EmptyString), st').
Proof.
  eexists. split; [vm_compute; reflexivity|].
  split; [vm_compute; reflexivity|].
  vm_compute. discriminate.
Qed.

(* ===================================================================== *)
(** ** Decoding the response *)
(* ===================================================================== *)

Lemma has_key_getitem v key :
  has_key v key = true <-> exists c, py_getitem v key = Ok c.
Proof.
  destruct v; simpl; try (split; [discriminate|intros (c & H); discriminate]).
  destruct (Dict.lookup key d) as [x|].
  - split; [intros _; exists x; reflexivity|reflexivity].
  - split; [discriminate|intros (c & H); discriminate].
Qed.

(** C8: in [ChatGPT_safe_generate_response] and
    [GPT4_safe_generate_response] the text decoded is the stripped
    response cut after its last closing brace (empty when it has none).
    An attempt returns a value only if [json.loads] accepts that text and
    the document has the key ["output"], whose value the validator then
    accepted; when [json.loads] raises or the key is missing, the attempt
    ends without a value and the loop goes on. *)
Theorem json_attempt_needs_output_key `{RT : Runtime}
    v prompt func_validate func_clean_up st :
  decodes_json v = true ->
  exists t st1,
    request v prompt st = (Ok t, st1)
    /\ (Str.contains_char "}" (Str.strip t) = false ->
        through_last_brace (Str.strip t) = EmptyString)
    /\ (Str.contains_char "}" (Str.strip t) = true ->
        exists head rest,
          Str.strip t = through_last_brace (Str.strip t) ++ rest
          /\ through_last_brace (Str.strip t) = head ++ "}"
          /\ Str.contains_char "}" rest = false)
    /\ (forall r st',
          attempt v prompt func_validate func_clean_up st = (Ok (Return r), st') ->
          exists document c,
            json_loads (through_last_brace (Str.strip t)) = Ok document
            /\ has_key document "output" = true
            /\ py_getitem document "output" = Ok c
            /\ func_validate c (sent_prompt v prompt) = Ok true
            /\ func_clean_up c (sent_prompt v prompt) = Ok r
            /\ st' = st1)
    /\ ((exists e, json_loads (through_last_brace (Str.strip t)) = Raise e)
        \/ (exists document,
              json_loads (through_last_brace (Str.strip t)) = Ok document
              /\ has_key document "output" = false) ->
        attempt v prompt func_validate func_clean_up st = (Ok Next, st1)).
Proof.
  intros Hjson.
  destruct (request_returns v prompt st) as (t & st1 & Hreq & _).
  exists t, st1. split; [exact Hreq|].
  split; [apply StrFacts.through_last_brace_absent|].
  split; [apply StrFacts.through_last_brace_present|].
  rewrite (attempt_run _ _ func_validate func_clean_up _ _ _ Hreq).
  unfold attempt_outcome.
  assert (Hcand : candidate v t =
                  match json_loads (through_last_brace (Str.strip t)) with
                  | inr document =>
                      match py_getitem document "output" with
                      | inr c => Some c
                      | inl _ => None
                      end
                  | inl _ => None
                  end).
  { destruct v; try discriminate; reflexivity. }
  assert (Hg : guarded v = true) by (destruct v; try discriminate; reflexivity).
  rewrite Hcand, Hg. clear Hcand.
  destruct (json_loads (through_last_brace (Str.strip t))) as [e|document]
    eqn:Hload.
  { split; [discriminate|reflexivity]. }
  destruct (py_getitem document "output") as [e|c] eqn:Hget.
  { split; [discriminate|reflexivity]. }
  assert (Hkey : has_key document "output" = true).
  { apply has_key_getitem. exists c. exact Hget. }
  split.
  - intros r st' H.
    destruct (func_validate c (sent_prompt v prompt)) as [e|[|]] eqn:Hval;
      try discriminate.
    destruct (func_clean_up c (sent_prompt v prompt)) as [e|r'] eqn:Hclean;
      try discriminate.
    injection H as <- <-.
    exists document, c.
    repeat (split; [first [assumption | reflexivity]|]). reflexivity.
  - intros [(e & H)|(d & H & Hno)]; [discriminate|].
    injection H as <-. rewrite Hkey in Hno. discriminate.
Qed.


Lemma json_attempt_needs_output_key_witness :
  exists t st1,
    request (RT := always result_ok) (ChatGPT "e" "i") "p"
      (start (always result_ok) 0%nat) = (Ok t, st1)
    /\ attempt (RT := always result_ok) (ChatGPT "e" "i") "p" accept_all keep
         (start (always result_ok) 0%nat) = (Ok Next, st1)
    /\ t = result_ok.
Proof.
  destruct (json_attempt_needs_output_key (RT := always result_ok)
              (ChatGPT "e" "i") "p" accept_all keep
              (start (always result_ok) 0%nat) eq_refl)
    as (t & st1 & Hreq & _ & _ & _ & Hfail).
  exists t, st1. split; [exact Hreq|].
  assert (Ht : t = result_ok).
  { vm_compute in Hreq. injection Hreq as <- _. vm_compute. reflexivity. }
  split; [|exact Ht].
  apply Hfail. right. subst t. eexists. split; vm_compute; reflexivity.
Defined.

(* ===================================================================== *)
(** ** Error strings *)
(* ===================================================================== *)

(** C9: failures travel as ordinary strings.  [GPT_request] always
    returns, and returns ["TOKEN LIMIT EXCEEDED"] when its [try] block
    raises (reading [gpt_parameter] is what can raise there);
    [_gpt5_nano_complete] returns ["ChatGPT ERROR"] when the primary call
    gave no text and the secondary call raised.  An attempt of
    [safe_generate_response] whose response equals either string ends
    without a value whatever the validator and the cleanup are; so it
    does when the model itself answered with that text. *)
Theorem error_strings_are_in_band `{RT : Runtime} :
  (forall prompt gpt_parameter st,
     exists t st', GPT_request prompt gpt_parameter st = (Ok t, st'))
  /\ (forall prompt gpt_parameter st e,
        py_get gpt_parameter "max_tokens" (PyInt 50) = Raise e
        \/ py_get gpt_parameter "stop" PyNone = Raise e ->
        exists st',
          GPT_request prompt gpt_parameter st = (Ok "TOKEN LIMIT EXCEEDED", st'))
  /\ (forall prompt m s st o1 w1 e w2,
        chat_completions_create (primary_request prompt m) (remote st)
        = (o1, w1) ->
        answered o1 = false ->
        chat_completions_create (fallback_request prompt m s) w1
        = (Raises e, w2) ->
        exists st',
          _gpt5_nano_complete prompt m s st = (Ok "ChatGPT ERROR", st'))
  /\ (forall prompt gpt_parameter func_validate func_clean_up st t st1,
        GPT_request prompt gpt_parameter st = (Ok t, st1) ->
        t = "TOKEN LIMIT EXCEEDED" \/ t = "ChatGPT ERROR" ->
        safe_generate_response_attempt prompt gpt_parameter func_validate
          func_clean_up st = (Ok Next, st1))
  /\ (forall prompt gpt_parameter func_validate func_clean_up st m s text w1,
        request_arguments (Safe gpt_parameter) = Some (m, s) ->
        chat_completions_create (primary_request prompt m) (remote st)
        = (Content (Some text), w1) ->
        Str.strip text = "TOKEN LIMIT EXCEEDED"
        \/ Str.strip text = "ChatGPT ERROR" ->
        exists st1,
          safe_generate_response_attempt prompt gpt_parameter func_validate
            func_clean_up st = (Ok Next, st1)
          /\ client_calls (trace st1)
             = (client_calls (trace st) ++ [primary_request prompt m])%list).
Proof.
  assert (Hskip : forall prompt gpt_parameter func_validate func_clean_up st t st1,
             GPT_request prompt gpt_parameter st = (Ok t, st1) ->
             t = "TOKEN LIMIT EXCEEDED" \/ t = "ChatGPT ERROR" ->
             safe_generate_response_attempt prompt gpt_parameter func_validate
               func_clean_up st = (Ok Next, st1)).
  { intros prompt gp func_validate func_clean_up st t st1 Hreq Ht.
    pose proof (attempt_run (Safe gp) prompt func_validate func_clean_up
                  st t st1 Hreq) as Hrun.
    cbn [attempt] in Hrun. rewrite Hrun. unfold attempt_outcome.
    cbn [candidate]. destruct Ht as [-> | ->]; reflexivity. }
  split; [|split; [|split; [|split]]].
  - intros prompt gp st.
    destruct (GPT_request_returns prompt gp st) as (t & st' & H & _).
    exists t, st'. exact H.
  - intros prompt gp st e Hraise.
    pose proof (request_run (Safe gp) prompt st) as Hrun.
    cbn [request] in Hrun. rewrite Hrun. cbv zeta. cbn [request_arguments].
    destruct Hraise as [H|H]; rewrite H.
    + eexists. reflexivity.
    + destruct (py_get gp "max_tokens" (PyInt 50)); eexists; reflexivity.
  - intros prompt m s st o1 w1 e w2 H1 Hno H2.
    rewrite _gpt5_nano_complete_run, H1, Hno, H2. eexists. reflexivity.
  - exact Hskip.
  - intros prompt gp func_validate func_clean_up st m s text w1 Hargs H1 Htext.
    pose proof (request_run (Safe gp) prompt st) as Hreq.
    cbv zeta in Hreq. rewrite Hargs, _gpt5_nano_complete_run in Hreq.
    cbn [remote trace sent_prompt request] in Hreq. rewrite H1 in Hreq.
    assert (Hans : answered (Content (Some text)) = true).
    { simpl. destruct text as [|a text].
      - destruct Htext as [H|H]; discriminate.
      - simpl. destruct Htext as [H|H]; rewrite H; reflexivity. }
    rewrite Hans in Hreq. cbn [answer_text text_of] in Hreq.
    eexists. split.
    + apply (Hskip _ _ _ _ _ _ _ Hreq). exact Htext.
    + cbn [trace]. rewrite !client_calls_app. simpl.
      rewrite <- app_assoc. reflexivity.
Qed.

Lemma error_strings_are_in_band_witness :
  exists st1,
    safe_generate_response_attempt (RT := always " ChatGPT ERROR ") "p"
      main_gpt_parameter accept_all keep
      (start (always " ChatGPT ERROR ") 0%nat)
    = (Ok Next, st1)
    /\ client_calls (trace st1)
       = ([] ++ [primary_request "p" (PyInt 50)])%list.
Proof.
  pose proof (proj2 (proj2 (proj2 (proj2
                (error_strings_are_in_band (RT := always " ChatGPT ERROR "))))))
    as H.
  apply (H "p" main_gpt_parameter accept_all keep
           (start (always " ChatGPT ERROR ") 0%nat)
           (PyInt 50) (PyList [PyStr Str.dq]) " ChatGPT ERROR " 1%nat).
  - reflexivity.
  - reflexivity.
  - right. vm_compute. reflexivity.
Defined.

(* ===================================================================== *)
(** ** Further properties of the retry loops *)
(* ===================================================================== *)

Section LoopOutcomes.

Context `{RT : Runtime}.
Context {A : Type}.
Variable body : M (flow A).

(** How a loop can end: the range is used up, or some round after [k]
    rounds without a value returns or raises. *)
Lemma for_range_cases n : forall st res st',
  for_range n body st = (res, st') ->
  (res = Ok Next /\ rounds body n st st')
  \/ (exists k st1,
        (k < n)%nat /\ rounds body k st st1 /\ body st1 = (res, st')
        /\ res <> Ok Next).
Proof.
  induction n as [|n IH]; simpl; intros st res st' H.
  - unfold ret in H. injection H as <- <-. left. split; constructor.
  - unfold bind in H. destruct (body st) as [[e|[|a]] st1] eqn:Hbody.
    + injection H as <- <-. right. exists O, st.
      repeat split; [lia | constructor | exact Hbody | discriminate].
    + destruct (IH _ _ _ H) as [(-> & Hr)|(k & st2 & Hk & Hr & Hb & Hne)].
      * left. split; [reflexivity|]. econstructor; eassumption.
      * right. exists (S k), st2.
        repeat split; [lia | econstructor; eassumption | exact Hb | exact Hne].
    + unfold ret in H. injection H as <- <-. right. exists O, st.
      repeat split; [lia | constructor | exact Hbody | discriminate].
Qed.

(** Rounds without a value can be split off the front of a loop. *)
Lemma for_range_skip n m st st1 :
  rounds body n st st1 ->
  for_range (n + m) body st = for_range m body st1.
Proof.
  induction 1 as [st|n st st1 st2 Hbody _ IH]; [reflexivity|].
  simpl. unfold bind. rewrite Hbody. exact IH.
Qed.

End LoopOutcomes.

Section LoopTraces.

Context `{RT : Runtime}.

(** One request adds one transport call and one or two client calls, all
    with the prompt of the loop. *)
Lemma request_trace v prompt st :
  exists new,
    trace (snd (request v prompt st)) = (trace st ++ new)%list
    /\ transport_calls new = 1%nat
    /\ (length (client_calls new) <= 2)%nat
    /\ Forall (made_for v prompt) (client_calls new).
Proof.
  rewrite request_run. cbv zeta.
  destruct (request_arguments v) as [[m s]|].
  - rewrite _gpt5_nano_complete_run. cbn [remote trace].
    destruct (chat_completions_create _ _) as [o1 w1].
    destruct (answered o1).
    + exists [Requested (request_name v);
              Created (primary_request (sent_prompt v prompt) m)].
      cbn [snd trace]. rewrite <- app_assoc.
      split; [reflexivity|]. split; [reflexivity|]. split; [simpl; lia|].
      simpl. constructor; [|constructor].
      split; [reflexivity|left; reflexivity].
    + destruct (chat_completions_create _ w1) as [o2 w2].
      exists [Requested (request_name v);
              Created (primary_request (sent_prompt v prompt) m);
              Created (fallback_request (sent_prompt v prompt) m s)].
      cbn [snd trace]. rewrite <- !app_assoc.
      split; [reflexivity|]. split; [reflexivity|]. split; [simpl; lia|].
      simpl. constructor; [|constructor; [|constructor]].
      * split; [reflexivity|left; reflexivity].
      * split; [reflexivity|right; reflexivity].
  - exists [Requested (request_name v)]. cbn [snd trace].
    split; [reflexivity|]. split; [reflexivity|]. split; [simpl; lia|].
    constructor.
Qed.

Lemma attempt_trace v prompt func_validate func_clean_up st :
  exists new,
    trace (snd (attempt v prompt func_validate func_clean_up st))
    = (trace st ++ new)%list
    /\ transport_calls new = 1%nat
    /\ (length (client_calls new) <= 2)%nat
    /\ Forall (made_for v prompt) (client_calls new).
Proof.
  destruct (request_returns v prompt st) as (t & st1 & Hreq & _).
  rewrite (attempt_run _ _ _ _ _ _ _ Hreq).
  pose proof (request_trace v prompt st) as H. rewrite Hreq in H. exact H.
Qed.

Lemma for_range_trace v prompt func_validate func_clean_up n : forall st,
  exists new,
    trace (snd (for_range n (attempt v prompt func_validate func_clean_up) st))
    = (trace st ++ new)%list
    /\ (transport_calls new <= n)%nat
    /\ (length (client_calls new) <= 2 * transport_calls new)%nat
    /\ Forall (made_for v prompt) (client_calls new).
Proof.
  induction n as [|n IH]; intros st.
  - exists []. simpl. rewrite app_nil_r. repeat split; try lia. constructor.
  - destruct (attempt_trace v prompt func_validate func_clean_up st)
      as (new1 & Ht1 & Hc1 & Hl1 & Hf1).
    simpl. unfold bind.
    destruct (attempt v prompt func_validate func_clean_up st)
      as [[e|[|a]] st1]; cbn [snd] in *.
    + exists new1. repeat split; try assumption; lia.
    + destruct (IH st1) as (new2 & Ht2 & Hc2 & Hl2 & Hf2).
      exists (new1 ++ new2)%list. rewrite Ht2, Ht1, app_assoc.
      rewrite transport_calls_app, client_calls_app, length_app.
      repeat split; try lia. apply Forall_app. split; assumption.
    + exists new1. repeat split; try assumption; lia.
Qed.

Lemma requester_state v prompt repeat fail_safe func_validate func_clean_up
    verbose st :
  snd (requester v prompt repeat fail_safe func_validate func_clean_up verbose st)
  = snd (for_range (Z.to_nat repeat)
           (attempt v prompt func_validate func_clean_up) st).
Proof.
  rewrite requester_run.
  destruct (for_range _ _ st) as [[e|[|r]] st']; reflexivity.
Qed.

Lemma requester_trace v prompt repeat fail_safe func_validate func_clean_up
    verbose st :
  exists new,
    trace (snd (requester v prompt repeat fail_safe func_validate
                  func_clean_up verbose st))
    = (trace st ++ new)%list
    /\ (transport_calls new <= Z.to_nat repeat)%nat
    /\ (length (client_calls new) <= 2 * transport_calls new)%nat
    /\ Forall (made_for v prompt) (client_calls new).
Proof. rewrite requester_state. apply for_range_trace. Qed.

(** When no attempt can end with a value, any number of rounds runs. *)
Lemma rounds_exist {A} (body : M (flow A)) :
  (forall st, exists st', body st = (Ok Next, st')) ->
  forall n st, exists st', rounds body n st st'.
Proof.
  intros Hbody. induction n as [|n IH]; intros st.
  - exists st. constructor.
  - destruct (Hbody st) as (st1 & H1). destruct (IH st1) as (st2 & H2).
    exists st2. econstructor; eassumption.
Qed.

End LoopTraces.

(** X1: a run of any of the four loops only adds to the trace, makes at
    most [repeat] transport calls (none when [repeat] is negative), and at
    most two client calls for each transport call. *)
Theorem requester_calls_are_bounded `{RT : Runtime}
    v prompt repeat fail_safe func_validate func_clean_up verbose st :
  exists new,
    trace (snd (requester v prompt repeat fail_safe func_validate
                  func_clean_up verbose st))
    = (trace st ++ new)%list
    /\ Z.of_nat (transport_calls new) <= Z.max 0 repeat
    /\ (length (client_calls new) <= 2 * transport_calls new)%nat.
Proof.
  destruct (requester_trace v prompt repeat fail_safe func_validate
              func_clean_up verbose st) as (new & Ht & Hc & Hl & _).
  exists new. repeat split; [exact Ht | lia | exact Hl].
Qed.

(** X2: every client call a loop makes, at the first attempt and at every
    retry, carries the same text, the completion prompt built around the
    prompt of the loop, and goes to one of the two models. *)
Theorem every_client_call_carries_the_prompt `{RT : Runtime}
    v prompt repeat fail_safe func_validate func_clean_up verbose st :
  exists new,
    trace (snd (requester v prompt repeat fail_safe func_validate
                  func_clean_up verbose st))
    = (trace st ++ new)%list
    /\ Forall (fun q =>
                 content q = completion_prompt (sent_prompt v prompt)
                 /\ (model q = "gpt-5-nano" \/ model q = "gpt-4o-mini"))
         (client_calls new).
Proof.
  destruct (requester_trace v prompt repeat fail_safe func_validate
              func_clean_up verbose st) as (new & Ht & _ & _ & Hf).
  exists new. split; [exact Ht | exact Hf].
Qed.

(** X3: when the validator returns [False] on every candidate, each loop
    returns its exhaustion value after exactly [repeat] transport calls
    (none for a negative [repeat]), whatever the client answers; in the
    three loops with a [try], the same holds when, on every candidate, the
    validator or the cleanup raises. *)
Theorem rejecting_validator_exhausts `{RT : Runtime}
    v prompt repeat fail_safe func_validate func_clean_up verbose st :
  (forall c,
     func_validate c (sent_prompt v prompt) = Ok false
     \/ (guarded v = true
         /\ ((exists e, func_validate c (sent_prompt v prompt) = Raise e)
             \/ (exists e, func_clean_up c (sent_prompt v prompt) = Raise e)))) ->
  exists st',
    requester v prompt repeat fail_safe func_validate func_clean_up verbose st
    = (Ok (exhaustion_value v fail_safe), st')
    /\ Z.of_nat (transport_calls (trace st'))
       = Z.of_nat (transport_calls (trace st)) + Z.max 0 repeat.
Proof.
  intros Hnever.
  assert (Hbody : forall s, exists s',
             attempt v prompt func_validate func_clean_up s = (Ok Next, s')).
  { intros s. destruct (request_returns v prompt s) as (t & s1 & Hreq & _).
    exists s1. rewrite (attempt_run _ _ _ _ _ _ _ Hreq).
    unfold attempt_outcome.
    destruct (candidate v t) as [c|]; [|reflexivity].
    destruct (Hnever c) as [H|(Hg & [(e & H)|(e & H)])].
    - rewrite H. reflexivity.
    - rewrite H, Hg. reflexivity.
    - rewrite H, Hg.
      destruct (func_validate c (sent_prompt v prompt)) as [e'|[|]];
        reflexivity. }
  destruct (rounds_exist _ Hbody (Z.to_nat repeat) st) as (st' & Hrounds).
  exists st'. split.
  - rewrite requester_run, (for_range_rounds _ _ _ _ Hrounds). reflexivity.
  - rewrite (rounds_calls _ _ _ _ _ _ _ Hrounds). lia.
Qed.

Lemma rejecting_validator_exhausts_witness :
  (exists st',
     requester (RT := always "driving") (Safe main_gpt_parameter) "p" 4
       (PyStr "rest") reject_all keep false (start (always "driving") 0%nat)
     = (Ok (PyStr "rest"), st')
     /\ Z.of_nat (transport_calls (trace st')) = 0 + Z.max 0 4)
  /\ (exists st',
        requester (RT := always "driving") ChatGPT_OLD "p" 4
          (PyStr "rest") main_func_validate main_func_clean_up false
          (start (always "driving") 0%nat)
        = (Ok (PyStr "rest"), st')
        /\ Z.of_nat (transport_calls (trace st')) = 0 + Z.max 0 4).
Proof.
  split.
  - apply (rejecting_validator_exhausts (RT := always "driving")
             (Safe main_gpt_parameter) "p" 4 (PyStr "rest") reject_all keep
             false (start (always "driving") 0%nat)).
    intros c. left. reflexivity.
  - apply (rejecting_validator_exhausts (RT := always "driving")
             ChatGPT_OLD "p" 4 (PyStr "rest") main_func_validate
             main_func_clean_up false (start (always "driving") 0%nat)).
    intros c. right. split; [reflexivity|]. left. exists TypeError. reflexivity.
Defined.

(** X4: [ChatGPT_safe_generate_response], [GPT4_safe_generate_response]
    and [ChatGPT_safe_generate_response_OLD] always return a value:
    nothing the client, [json.loads], the validator or the cleanup raises
    leaves them. *)
Theorem guarded_loops_never_raise `{RT : Runtime}
    prompt example_output special_instruction repeat fail_safe
    func_validate func_clean_up verbose st :
  (exists r st',
     ChatGPT_safe_generate_response prompt example_output special_instruction
       repeat fail_safe func_validate func_clean_up verbose st = (Ok r, st'))
  /\ (exists r st',
        GPT4_safe_generate_response prompt example_output special_instruction
          repeat fail_safe func_validate func_clean_up verbose st = (Ok r, st'))
  /\ (exists r st',
        ChatGPT_safe_generate_response_OLD prompt repeat fail_safe
          func_validate func_clean_up verbose st = (Ok r, st')).
Proof.
  split; [|split].
  - apply (guarded_requester_returns (ChatGPT example_output special_instruction)
             prompt repeat fail_safe func_validate func_clean_up verbose st
             eq_refl).
  - apply (guarded_requester_returns (GPT4 example_output special_instruction)
             prompt repeat fail_safe func_validate func_clean_up verbose st
             eq_refl).
  - apply (guarded_requester_returns ChatGPT_OLD
             prompt repeat fail_safe func_validate func_clean_up verbose st
             eq_refl).
Qed.

(** X5: a value a loop returns is either its exhaustion value, after
    [repeat] attempts that all ended without a value, or the cleanup's
    result on a candidate that the validator accepted, taken from the
    response of the last transport call made. *)
Theorem returned_value_was_validated `{RT : Runtime}
    v prompt repeat fail_safe func_validate func_clean_up verbose st r st' :
  requester v prompt repeat fail_safe func_validate func_clean_up verbose st
  = (Ok r, st') ->
  (r = exhaustion_value v fail_safe
   /\ rounds (attempt v prompt func_validate func_clean_up)
        (Z.to_nat repeat) st st')
  \/ (exists k st1 t c,
        Z.of_nat k < repeat
        /\ rounds (attempt v prompt func_validate func_clean_up) k st st1
        /\ request v prompt st1 = (Ok t, st')
        /\ candidate v t = Some c
        /\ func_validate c (sent_prompt v prompt) = Ok true
        /\ func_clean_up c (sent_prompt v prompt) = Ok r).
Proof.
  rewrite requester_run.
  destruct (for_range _ _ st) as [[e|f] st2] eqn:Hloop;
    [intros H; discriminate H|].
  destruct (for_range_cases _ _ _ _ _ Hloop)
    as [(Hf & Hrounds)|(k & st1 & Hk & Hrounds & Hbody & Hne)];
    [injection Hf as ->|].
  - intros H. injection H as <- <-. left. split; [reflexivity|exact Hrounds].
  - destruct f as [|a]; [exfalso; apply Hne; reflexivity|].
    intros H. injection H as <- <-. right.
    destruct (request_returns v prompt st1) as (t & st3 & Hreq & _).
    rewrite (attempt_run _ _ _ _ _ _ _ Hreq) in Hbody.
    unfold attempt_outcome in Hbody.
    destruct (candidate v t) as [c|] eqn:Hc; [|discriminate].
    destruct (func_validate c (sent_prompt v prompt)) as [e|[|]] eqn:Hval;
      try (destruct (guarded v); discriminate); try discriminate.
    destruct (func_clean_up c (sent_prompt v prompt)) as [e|r'] eqn:Hclean;
      try (destruct (guarded v); discriminate).
    injection Hbody as <- <-.
    exists k, st1, t, c.
    split; [lia|]. split; [exact Hrounds|]. split; [exact Hreq|].
    split; [exact Hc|]. split; [exact Hval|exact Hclean].
Qed.

Lemma returned_value_was_validated_witness :
  (PyStr "ok" = exhaustion_value (ChatGPT "e" "i") (PyStr "error")
   /\ rounds (attempt (RT := answers_at_second_attempt) (ChatGPT "e" "i") "p"
                accept_non_empty keep)
        (Z.to_nat 3) (start answers_at_second_attempt 0%nat)
        (snd (requester (RT := answers_at_second_attempt) (ChatGPT "e" "i")
                "p" 3 (PyStr "error") accept_non_empty keep false
                (start answers_at_second_attempt 0%nat))))
  \/ (exists k st1 t c,
        Z.of_nat k < 3
        /\ rounds (attempt (RT := answers_at_second_attempt) (ChatGPT "e" "i")
                     "p" accept_non_empty keep)
             k (start answers_at_second_attempt 0%nat) st1
        /\ request (RT := answers_at_second_attempt) (ChatGPT "e" "i") "p" st1
           = (Ok t,
              snd (requester (RT := answers_at_second_attempt)
                     (ChatGPT "e" "i") "p" 3 (PyStr "error") accept_non_empty
                     keep false (start answers_at_second_attempt 0%nat)))
        /\ candidate (RT := answers_at_second_attempt) (ChatGPT "e" "i") t
           = Some c
        /\ accept_non_empty c (sent_prompt (ChatGPT "e" "i") "p") = Ok true
        /\ keep c (sent_prompt (ChatGPT "e" "i") "p") = Ok (PyStr "ok")).
Proof.
  apply (returned_value_was_validated (RT := answers_at_second_attempt)
           (ChatGPT "e" "i") "p" 3 (PyStr "error") accept_non_empty keep false
           (start answers_at_second_attempt 0%nat)).
  vm_compute. reflexivity.
Defined.

(** X6: [safe_generate_response] raises only what its validator or its
    cleanup raised, on a response that is not one of the two error
    strings: the transport never makes it raise. *)
Theorem safe_loop_raises_only_from_callbacks `{RT : Runtime}
    prompt gpt_parameter repeat fail_safe func_validate func_clean_up verbose
    st e st' :
  safe_generate_response prompt gpt_parameter repeat fail_safe func_validate
    func_clean_up verbose st = (Raise e, st') ->
  exists k st1 t,
    Z.of_nat k < repeat
    /\ rounds (safe_generate_response_attempt prompt gpt_parameter
                 func_validate func_clean_up) k st st1
    /\ GPT_request prompt gpt_parameter st1 = (Ok t, st')
    /\ Str.elem t error_responses = false
    /\ (func_validate (PyStr t) prompt = Raise e
        \/ (func_validate (PyStr t) prompt = Ok true
            /\ func_clean_up (PyStr t) prompt = Raise e)).
Proof.
  pose proof (requester_run (Safe gpt_parameter) prompt repeat fail_safe
                func_validate func_clean_up verbose st) as Hrun.
  cbn [requester attempt] in Hrun. rewrite Hrun. clear Hrun.
  destruct (for_range _ _ st) as [[e'|f] st2] eqn:Hloop;
    [|destruct f; intros H; discriminate H].
  intros H. injection H as <- <-.
  destruct (for_range_cases _ _ _ _ _ Hloop)
    as [(Hbad & _)|(k & st1 & Hk & Hrounds & Hbody & _)]; [discriminate|].
  destruct (GPT_request_returns prompt gpt_parameter st1)
    as (t & st3 & Hreq & _).
  pose proof (attempt_run (Safe gpt_parameter) prompt func_validate
                func_clean_up st1 t st3 Hreq) as Hatt.
  cbn [attempt] in Hatt. rewrite Hatt in Hbody. clear Hatt.
  unfold attempt_outcome in Hbody. cbn [candidate guarded sent_prompt] in Hbody.
  destruct (Str.elem t error_responses) eqn:Helem; [discriminate|].
  exists k, st1, t.
  destruct (func_validate (PyStr t) prompt) as [e1|[|]] eqn:Hval;
    try discriminate.
  - injection Hbody as <- <-.
    split; [lia|]. split; [exact Hrounds|]. split; [exact Hreq|].
    split; [exact Helem|]. left. reflexivity.
  - destruct (func_clean_up (PyStr t) prompt) as [e2|r] eqn:Hclean;
      try discriminate.
    injection Hbody as <- <-.
    split; [lia|]. split; [exact Hrounds|]. split; [exact Hreq|].
    split; [exact Helem|]. right. split; reflexivity.
Qed.

Lemma safe_loop_raises_only_from_callbacks_witness :
  exists k st1 t,
    Z.of_nat k < 5
    /\ rounds (safe_generate_response_attempt (RT := always "driving") "p"
                 main_gpt_parameter main_func_validate main_func_clean_up)
         k (start (always "driving") 0%nat) st1
    /\ GPT_request (RT := always "driving") "p" main_gpt_parameter st1
       = (Ok t,
          snd (safe_generate_response (RT := always "driving") "p"
                 main_gpt_parameter 5 (PyStr "rest") main_func_validate
                 main_func_clean_up true (start (always "driving") 0%nat)))
    /\ Str.elem t error_responses = false
    /\ (main_func_validate (PyStr t) "p" = Raise TypeError
        \/ (main_func_validate (PyStr t) "p" = Ok true
            /\ main_func_clean_up (PyStr t) "p" = Raise TypeError)).
Proof.
  apply (safe_loop_raises_only_from_callbacks (RT := always "driving") "p"
           main_gpt_parameter 5 (PyStr "rest") main_func_validate
           main_func_clean_up true (start (always "driving") 0%nat)).
  vm_compute. reflexivity.
Defined.

(** X7: attempts that ended without a value can be split off: a loop
    with [n + m] attempts whose first [n] fail goes on exactly like a loop
    with [m] attempts started in the state they left. *)
Theorem failed_attempts_split_off `{RT : Runtime}
    v prompt fail_safe func_validate func_clean_up verbose n m st st1 :
  rounds (attempt v prompt func_validate func_clean_up) n st st1 ->
  0 <= m ->
  requester v prompt (Z.of_nat n + m) fail_safe func_validate func_clean_up
    verbose st
  = requester v prompt m fail_safe func_validate func_clean_up verbose st1.
Proof.
  intros Hrounds Hm. rewrite !requester_run.
  replace (Z.to_nat (Z.of_nat n + m)) with (n + Z.to_nat m)%nat by lia.
  rewrite (for_range_skip _ n (Z.to_nat m) st st1 Hrounds). reflexivity.
Qed.

Lemma failed_attempts_split_off_witness :
  requester (RT := answers_at_second_attempt) (ChatGPT "e" "i") "p"
    (Z.of_nat 1 + 2) (PyStr "error") accept_non_empty keep false
    (start answers_at_second_attempt 0%nat)
  = requester (RT := answers_at_second_attempt) (ChatGPT "e" "i") "p"
      2 (PyStr "error") accept_non_empty keep false
      (snd (attempt (RT := answers_at_second_attempt) (ChatGPT "e" "i") "p"
              accept_non_empty keep (start answers_at_second_attempt 0%nat))).
Proof.
  apply (failed_attempts_split_off (RT := answers_at_second_attempt)
           (ChatGPT "e" "i") "p" (PyStr "error") accept_non_empty keep false
           1 2 (start answers_at_second_attempt 0%nat)).
  - eapply rounds_more; [vm_compute; reflexivity | apply rounds_done].
  - lia.
Defined.

(** X8: a run that ended before its budget was used up, with a value or
    with an exception, is the same under any larger budget. *)
Theorem larger_budget_keeps_early_outcome `{RT : Runtime}
    v prompt repeat repeat' fail_safe func_validate func_clean_up verbose
    st res st' :
  requester v prompt repeat fail_safe func_validate func_clean_up verbose st
  = (res, st') ->
  ~ rounds (attempt v prompt func_validate func_clean_up)
      (Z.to_nat repeat) st st' ->
  repeat <= repeat' ->
  requester v prompt repeat' fail_safe func_validate func_clean_up verbose st
  = (res, st').
Proof.
  intros Hrun Hearly Hle. rewrite requester_run in *.
  destruct (for_range (Z.to_nat repeat) _ st) as [out st2] eqn:Hloop.
  destruct (for_range_cases _ _ _ _ _ Hloop)
    as [(-> & Hrounds)|(k & st1 & Hk & Hrounds & Hbody & Hne)].
  - exfalso. apply Hearly. injection Hrun as _ <-. exact Hrounds.
  - destruct out as [e|[|a]]; [|exfalso; apply Hne; reflexivity|].
    + rewrite (for_range_raise _ k (Z.to_nat repeat') st st1 e st2
                 Hrounds Hbody); [exact Hrun|lia].
    + rewrite (for_range_return _ k (Z.to_nat repeat') st st1 a st2
                 Hrounds Hbody); [exact Hrun|lia].
Qed.

Lemma larger_budget_keeps_early_outcome_witness :
  requester (RT := always "driving") (Safe main_gpt_parameter) "p" 5
    (PyStr "rest") accept_non_empty keep false (start (always "driving") 0%nat)
  = (Ok (PyStr "driving"),
     snd (requester (RT := always "driving") (Safe main_gpt_parameter) "p" 1
            (PyStr "rest") accept_non_empty keep false
            (start (always "driving") 0%nat))).
Proof.
  apply (larger_budget_keeps_early_outcome (RT := always "driving")
           (Safe main_gpt_parameter) "p" 1 5 (PyStr "rest") accept_non_empty
           keep false (start (always "driving") 0%nat)).
  - vm_compute. reflexivity.
  - intros H. apply for_range_rounds in H. vm_compute in H. discriminate H.
  - lia.
Defined.

(* ===================================================================== *)
(** ** Searching, replacing and splitting: facts *)
(* ===================================================================== *)

Module StrOpsFacts.
Import StrOps.

Lemma startswith_app p r : startswith p (p ++ r) = true.
Proof.
  induction p as [|a p IH]; [reflexivity|].
  simpl. rewrite Ascii.eqb_refl. exact IH.
Qed.

Lemma startswith_split p s :
  startswith p s = true -> s = p ++ drop (String.length p) s.
Proof.
  revert s. induction p as [|a p IH]; intros s H; [reflexivity|].
  destruct s as [|b s]; [discriminate|].
  simpl in H. apply andb_true_iff in H as [Hab Hp].
  apply Ascii.eqb_eq in Hab. subst b. simpl. f_equal. apply IH. exact Hp.
Qed.

Lemma drop_app_length p r : drop (String.length p) (p ++ r) = r.
Proof. induction p as [|a p IH]; [destruct r; reflexivity|exact IH]. Qed.

Lemma drop_empty n : drop n EmptyString = EmptyString.
Proof. destruct n; reflexivity. Qed.

Lemma contains_empty_needle s : contains EmptyString s = true.
Proof. destruct s; reflexivity. Qed.

(** A needle found in the second part of a text is found in the text. *)
Lemma contains_app_r sub a b : contains sub b = true -> contains sub (a ++ b) = true.
Proof.
  intros H. induction a as [|c a IH]; [exact H|].
  simpl. rewrite IH. apply orb_true_r.
Qed.

(** An interrupted scan goes on as a fresh scan of what is left. *)
Lemma replace_scan_skip old new s : forall k,
  replace_scan old new k s = replace_scan old new 0 (drop k s).
Proof.
  induction s as [|c r IH]; intros k.
  - rewrite drop_empty. reflexivity.
  - destruct k as [|k]; [reflexivity|]. simpl. apply IH.
Qed.

Lemma replace_scan_hit a old new r :
  replace_scan (String a old) new 0 (String a old ++ r)
  = new ++ replace_scan (String a old) new 0 r.
Proof.
  change (replace_scan (String a old) new 0 (String a old ++ r))
    with (if startswith (String a old) (String a old ++ r)
          then new ++ replace_scan (String a old) new
                        (String.length (String a old) - 1) (old ++ r)
          else String a (replace_scan (String a old) new 0 (old ++ r))).
  rewrite startswith_app. f_equal.
  rewrite replace_scan_skip. simpl. rewrite Nat.sub_0_r, drop_app_length.
  reflexivity.
Qed.

Lemma replace_scan_miss old new c r :
  startswith old (String c r) = false ->
  replace_scan old new 0 (String c r) = String c (replace_scan old new 0 r).
Proof. intros H. simpl. simpl in H. rewrite H. reflexivity. Qed.

(** Without an occurrence of [old] the text is left as it is. *)
Lemma replace_absent old new s :
  contains old s = false -> replace old new s = s.
Proof.
  destruct old as [|a old].
  { rewrite contains_empty_needle. discriminate. }
  unfold replace. induction s as [|c r IH]; intros H; [reflexivity|].
  simpl in H. apply orb_false_iff in H as [Hs Hr].
  rewrite replace_scan_miss by exact Hs. f_equal. apply IH. exact Hr.
Qed.

Lemma split_scan_skip sep s : forall k,
  split_scan sep k s = split_scan sep 0 (drop k s).
Proof.
  induction s as [|c r IH]; intros k.
  - rewrite drop_empty. reflexivity.
  - destruct k as [|k]; [reflexivity|]. simpl. apply IH.
Qed.

Lemma split_scan_hit a sep r :
  split_scan (String a sep) 0 (String a sep ++ r)
  = EmptyString :: split_scan (String a sep) 0 r.
Proof.
  change (split_scan (String a sep) 0 (String a sep ++ r))
    with (if startswith (String a sep) (String a sep ++ r)
          then EmptyString
               :: split_scan (String a sep)
                    (String.length (String a sep) - 1) (sep ++ r)
          else match split_scan (String a sep) 0 (sep ++ r) with
               | piece :: rest => String a piece :: rest
               | [] => [String a EmptyString]
               end).
  rewrite startswith_app. f_equal.
  rewrite split_scan_skip. simpl. rewrite Nat.sub_0_r, drop_app_length.
  reflexivity.
Qed.

Lemma split_scan_not_nil sep s : forall k, split_scan sep k s <> [].
Proof.
  induction s as [|c r IH]; intros k; [discriminate|].
  destruct k as [|k]; [|apply IH].
  cbn [split_scan]. destruct (startswith sep (String c r)); [discriminate|].
  destruct (split_scan sep 0 r); discriminate.
Qed.

Lemma split_scan_miss sep c r :
  startswith sep (String c r) = false ->
  exists piece rest,
    split_scan sep 0 r = piece :: rest
    /\ split_scan sep 0 (String c r) = String c piece :: rest.
Proof.
  intros H. simpl. simpl in H. rewrite H.
  destruct (split_scan sep 0 r) as [|piece rest] eqn:E.
  - exfalso. exact (split_scan_not_nil sep r 0 E).
  - exists piece, rest. split; reflexivity.
Qed.

(** Without an occurrence of the separator there is one piece. *)
Lemma split_scan_absent sep s :
  contains sep s = false -> split_scan sep 0 s = [s].
Proof.
  induction s as [|c r IH]; intros H; [reflexivity|].
  simpl in H. apply orb_false_iff in H as [Hs Hr].
  destruct (split_scan_miss sep c r Hs) as (piece & rest & E1 & E2).
  rewrite E2. rewrite (IH Hr) in E1. injection E1 as <- <-. reflexivity.
Qed.

(** With an occurrence there are at least two pieces. *)
Lemma split_scan_present a sep s :
  contains (String a sep) s = true ->
  exists first second rest,
    split_scan (String a sep) 0 s = first :: second :: rest.
Proof.
  induction s as [|c r IH]; intros H; [discriminate|].
  destruct (startswith (String a sep) (String c r)) eqn:Hs.
  - rewrite (startswith_split _ _ Hs), split_scan_hit.
    destruct (split_scan (String a sep) 0
                (drop (String.length (String a sep)) (String c r)))
      as [|second rest] eqn:E.
    + exfalso. exact (split_scan_not_nil _ _ 0 E).
    + exists EmptyString, second, rest. reflexivity.
  - assert (Hr : contains (String a sep) r = true).
    { change (contains (String a sep) (String c r))
        with (startswith (String a sep) (String c r)
              || contains (String a sep) r) in H.
      rewrite Hs in H. exact H. }
    destruct (IH Hr) as (first & second & rest & E).
    destruct (split_scan_miss _ c r Hs) as (piece & rest' & E1 & E2).
    rewrite E in E1. injection E1 as <- <-.
    exists (String c first), second, rest. exact E2.
Qed.

(** The first occurrence: when [sep] starts nowhere inside [a], the text
    [a ++ sep ++ b] splits into [a] and the pieces of [b]. *)
Lemma split_scan_first x sep a b :
  (forall k, (k < String.length a)%nat ->
             startswith (String x sep) (drop k (a ++ String x sep ++ b)) = false) ->
  split_scan (String x sep) 0 (a ++ String x sep ++ b)
  = a :: split_scan (String x sep) 0 b.
Proof.
  induction a as [|c a IH]; intros H.
  - apply split_scan_hit.
  - assert (H0 : startswith (String x sep) (String c (a ++ String x sep ++ b))
                 = false).
    { apply (H O). simpl. lia. }
    destruct (split_scan_miss _ c (a ++ String x sep ++ b) H0)
      as (piece & rest & E1 & E2).
    change (String c a ++ String x sep ++ b)
      with (String c (a ++ String x sep ++ b)).
    rewrite E2. rewrite IH in E1.
    + injection E1 as <- <-. reflexivity.
    + intros k Hk. apply (H (S k)). simpl. lia.
Qed.

(** The same for [replace]. *)
Lemma replace_scan_first x old new a b :
  (forall k, (k < String.length a)%nat ->
             startswith (String x old) (drop k (a ++ String x old ++ b)) = false) ->
  replace_scan (String x old) new 0 (a ++ String x old ++ b)
  = a ++ new ++ replace_scan (String x old) new 0 b.
Proof.
  induction a as [|c a IH]; intros H.
  - apply replace_scan_hit.
  - assert (H0 : startswith (String x old) (String c (a ++ String x old ++ b))
                 = false).
    { apply (H O). simpl. lia. }
    change (String c a ++ String x old ++ b)
      with (String c (a ++ String x old ++ b)).
    rewrite (replace_scan_miss _ new c (a ++ String x old ++ b) H0).
    change (String c a ++ new ++ replace_scan (String x old) new 0 b)
      with (String c (a ++ new ++ replace_scan (String x old) new 0 b)).
    f_equal. apply IH.
    intros k Hk. apply (H (S k)). simpl. lia.
Qed.

Lemma startswith_app_cases p : forall u v,
  startswith p (u ++ v) = true ->
  startswith p u = true
  \/ exists p2, p = u ++ p2 /\ startswith p2 v = true.
Proof.
  induction p as [|a p IH]; intros u v H; [left; reflexivity|].
  destruct u as [|b u].
  - right. exists (String a p). split; [reflexivity|exact H].
  - simpl in H. apply andb_true_iff in H as [Hab Hp].
    apply Ascii.eqb_eq in Hab. subst b.
    destruct (IH u v Hp) as [Hu|(p2 & -> & Hv)].
    + left. simpl. rewrite Ascii.eqb_refl. exact Hu.
    + right. exists p2. split; [reflexivity|exact Hv].
Qed.

Lemma startswith_shorter p : forall s b,
  (String.length p <= String.length s)%nat ->
  startswith p (s ++ b) = startswith p s.
Proof.
  induction p as [|a p IH]; intros s b H; [reflexivity|].
  destruct s as [|c s]; [simpl in H; lia|].
  simpl. f_equal. apply IH. simpl in H. lia.
Qed.

Lemma contains_drop sub s : forall k,
  startswith sub (drop k s) = true -> contains sub s = true.
Proof.
  induction s as [|c r IH]; intros k H.
  - rewrite drop_empty in H. simpl. rewrite H. reflexivity.
  - destruct k as [|k].
    + simpl in H. simpl. rewrite H. reflexivity.
    + simpl in H. simpl. rewrite (IH k H). apply orb_true_r.
Qed.

Lemma drop_app a b : forall k,
  (k <= String.length a)%nat -> drop k (a ++ b) = drop k a ++ b.
Proof.
  induction a as [|c a IH]; intros k H.
  - simpl in H. replace k with O by lia. destruct b; reflexivity.
  - destruct k as [|k]; [reflexivity|]. simpl. apply IH. simpl in H. lia.
Qed.

Lemma drop_length_lt a : forall k,
  (k < String.length a)%nat -> drop k a <> EmptyString.
Proof.
  induction a as [|c a IH]; intros k H; [simpl in H; lia|].
  destruct k as [|k]; [discriminate|]. simpl. apply IH. simpl in H. lia.
Qed.

Lemma length_app a b :
  String.length (a ++ b) = (String.length a + String.length b)%nat.
Proof. induction a as [|c a IH]; simpl; [reflexivity|rewrite IH; reflexivity]. Qed.

Lemma app_empty_r s : s ++ EmptyString = s.
Proof. induction s as [|c s IH]; simpl; [reflexivity|rewrite IH; reflexivity]. Qed.

Lemma borderless_spec sep u p2 :
  borderless sep = true ->
  sep = u ++ p2 -> u <> EmptyString -> p2 <> EmptyString ->
  startswith p2 sep = false.
Proof.
  intros Hb Hsep Hu Hp. unfold borderless in Hb.
  rewrite forallb_forall in Hb.
  assert (Hlen : String.length sep = (String.length u + String.length p2)%nat).
  { rewrite Hsep. apply length_app. }
  assert (Hin : In (String.length u) (seq 1 (String.length sep - 1))).
  { apply in_seq. destruct u; [congruence|]. destruct p2; [congruence|].
    simpl in *. lia. }
  specialize (Hb _ Hin). apply negb_true_iff in Hb.
  rewrite Hsep, drop_app_length in Hb. rewrite Hsep. exact Hb.
Qed.

(** A needle without borders that occurs in [a] nowhere starts nowhere
    inside [a] in [a ++ sep ++ b] either. *)
Lemma first_occurrence sep a b :
  borderless sep = true ->
  contains sep a = false ->
  forall k, (k < String.length a)%nat ->
            startswith sep (drop k (a ++ sep ++ b)) = false.
Proof.
  intros Hb Ha k Hk.
  destruct (startswith sep (drop k (a ++ sep ++ b))) eqn:E; [|reflexivity].
  exfalso. rewrite drop_app in E by lia.
  destruct (startswith_app_cases _ _ _ E) as [Hu|(p2 & Hsep & Hv)].
  - rewrite (contains_drop _ _ _ Hu) in Ha. discriminate.
  - destruct p2 as [|c p2].
    + rewrite app_empty_r in Hsep.
      assert (Hu : startswith sep (drop k a) = true).
      { rewrite <- Hsep. rewrite <- (app_empty_r sep) at 2.
        apply startswith_app. }
      rewrite (contains_drop _ _ _ Hu) in Ha. discriminate.
    + rewrite startswith_shorter in Hv.
      * rewrite (borderless_spec sep (drop k a) (String c p2) Hb Hsep) in Hv;
          [discriminate | apply drop_length_lt; exact Hk | discriminate].
      * rewrite Hsep, length_app. lia.
Qed.

End StrOpsFacts.

(* ===================================================================== *)
(** ** Prompt templates *)
(* ===================================================================== *)

Section PromptFacts.
Import StrOps StrOpsFacts.

Lemma comment_block_marker_shape :
  exists x sep, comment_block_marker = String x sep.
Proof. eexists _, _. reflexivity. Qed.

Lemma comment_block_marker_borderless : borderless comment_block_marker = true.
Proof. vm_compute. reflexivity. Qed.

(** Inputs whose placeholders the text does not have leave it as it
    is. *)
Lemma fill_inputs_absent inputs : forall count text,
  (forall k, (k < List.length inputs)%nat ->
             contains (placeholder (count + k)) text = false) ->
  fill_inputs count inputs text = text.
Proof.
  induction inputs as [|i rest IH]; intros count text H; [reflexivity|].
  cbn [fill_inputs]. rewrite replace_absent.
  - apply IH. intros k Hk.
    replace (S count + k)%nat with (count + S k)%nat by lia.
    apply H. simpl. lia.
  - replace count with (count + 0)%nat by lia. apply H. simpl. lia.
Qed.

(** What [generate_prompt] makes of the text once the inputs are filled
    in. *)
Lemma generate_prompt_filled inputs text :
  generate_prompt (Many inputs) text
  = generate_prompt (Many []) (fill_inputs 0 inputs text).
Proof. reflexivity. Qed.

Lemma contains_marker_app head tail :
  contains comment_block_marker (head ++ comment_block_marker ++ tail) = true.
Proof.
  apply contains_app_r.
  destruct (comment_block_marker ++ tail) eqn:E.
  - destruct comment_block_marker_shape as (x & sep & Hm).
    rewrite Hm in E. discriminate.
  - rewrite <- E. simpl.
    change (startswith comment_block_marker (comment_block_marker ++ tail)
            || match comment_block_marker ++ tail with
               | EmptyString => false
               | String _ r => contains comment_block_marker r
               end = true).
    rewrite startswith_app. reflexivity.
Qed.

Lemma split_at_marker head tail :
  contains comment_block_marker head = false ->
  split comment_block_marker (head ++ comment_block_marker ++ tail)
  = Ok (head :: match split comment_block_marker tail with
                | inr pieces => pieces
                | inl _ => []
                end).
Proof.
  intros Hhead.
  pose proof (first_occurrence comment_block_marker head tail
                comment_block_marker_borderless Hhead) as Hfirst.
  destruct comment_block_marker_shape as (x & sep & Hm).
  rewrite Hm in *. unfold split. f_equal.
  apply split_scan_first. exact Hfirst.
Qed.

End PromptFacts.

(** X9: [generate_prompt] always returns, for every input and every text
    of the template file: the test for the comment-block marker makes sure
    that [split(...)[1]] exists.  The prompt it returns has no white
    space around it. *)
Theorem generate_prompt_returns_stripped curr_input file_text :
  exists prompt,
    generate_prompt curr_input file_text = Ok prompt
    /\ Str.strip prompt = prompt.
Proof.
  unfold generate_prompt.
  set (inputs := match curr_input with One s => [s] | Many l => l end).
  set (filled := fill_inputs 0 inputs file_text).
  destruct (StrOps.contains comment_block_marker filled) eqn:Hin.
  - destruct comment_block_marker_shape as (x & sep & Hm).
    rewrite Hm in *.
    destruct (StrOpsFacts.split_scan_present x sep filled Hin)
      as (first & second & rest & Hsplit).
    unfold StrOps.split. rewrite Hsplit. simpl.
    exists (Str.strip second). split; [reflexivity|].
    apply StripFacts.strip_idempotent.
  - exists (Str.strip filled). split; [reflexivity|].
    apply StripFacts.strip_idempotent.
Qed.

(** X10: inputs for which the template has no placeholder are ignored:
    when none of [!<INPUT 0>!], ..., [!<INPUT n-1>!] occurs in the text,
    the [n] inputs change nothing, and a text that has no comment-block
    marker either is returned stripped.  A placeholder with a number
    beyond the inputs is left in the prompt. *)
Theorem unused_inputs_are_ignored inputs file_text :
  (forall k, (k < List.length inputs)%nat ->
             StrOps.contains (placeholder k) file_text = false) ->
  generate_prompt (Many inputs) file_text = generate_prompt (Many []) file_text
  /\ (StrOps.contains comment_block_marker file_text = false ->
      generate_prompt (Many inputs) file_text = Ok (Str.strip file_text)).
Proof.
  intros H.
  assert (Hfill : fill_inputs 0 inputs file_text = file_text).
  { apply fill_inputs_absent. exact H. }
  split.
  - rewrite generate_prompt_filled, Hfill. reflexivity.
  - intros Hm. unfold generate_prompt. rewrite Hfill, Hm. reflexivity.
Qed.

Lemma unused_inputs_are_ignored_witness :
  generate_prompt (Many ["Ann"; "park"]) "  Who goes where? !<INPUT 2>! "
  = Ok "Who goes where? !<INPUT 2>!".
Proof.
  apply (unused_inputs_are_ignored ["Ann"; "park"]
           "  Who goes where? !<INPUT 2>! ").
  - intros k Hk. simpl in Hk.
    assert (Hcases : k = 0%nat \/ k = 1%nat) by lia.
    destruct Hcases as [-> | ->]; vm_compute; reflexivity.
  - vm_compute. reflexivity.
Defined.

(** X11: when the text with its inputs filled in is a head, the
    comment-block marker and a body, possibly followed by another marker
    and more text, and the marker occurs neither in the head nor in the
    body, the prompt is the body, stripped: what comes before the first
    marker and after the second one is dropped. *)
Theorem prompt_is_between_markers inputs file_text head body rest :
  fill_inputs 0 inputs file_text
  = head ++ comment_block_marker ++ body ++ rest ->
  rest = EmptyString \/ (exists tail, rest = comment_block_marker ++ tail) ->
  StrOps.contains comment_block_marker head = false ->
  StrOps.contains comment_block_marker body = false ->
  generate_prompt (Many inputs) file_text = Ok (Str.strip body).
Proof.
  intros Hfill Hrest Hhead Hbody.
  unfold generate_prompt. rewrite Hfill, contains_marker_app.
  rewrite (split_at_marker head (body ++ rest) Hhead).
  assert (Hsecond : exists l, StrOps.split comment_block_marker (body ++ rest)
                              = Ok (body :: l)).
  { destruct Hrest as [-> | (tail & ->)].
    - rewrite StrOpsFacts.app_empty_r.
      destruct comment_block_marker_shape as (x & sep & Hm).
      rewrite Hm in *. unfold StrOps.split.
      rewrite (StrOpsFacts.split_scan_absent _ _ Hbody).
      exists []. reflexivity.
    - rewrite (split_at_marker body tail Hbody). eexists. reflexivity. }
  destruct Hsecond as (l & ->). reflexivity.
Qed.

Lemma prompt_is_between_markers_witness :
  generate_prompt (Many ["Ann"])
    ("Variables: !<INPUT 0>! -- name" ++ comment_block_marker
     ++ " !<INPUT 0>! is " ++ comment_block_marker ++ "ignored")
  = Ok "Ann is".
Proof.
  apply (prompt_is_between_markers ["Ann"]
           ("Variables: !<INPUT 0>! -- name" ++ comment_block_marker
            ++ " !<INPUT 0>! is " ++ comment_block_marker ++ "ignored")
           "Variables: Ann -- name" " Ann is "
           (comment_block_marker ++ "ignored")).
  - vm_compute. reflexivity.
  - right. exists "ignored". reflexivity.
  - vm_compute. reflexivity.
  - vm_compute. reflexivity.
Defined.

(** X12: a placeholder [!<INPUT 0>!] that follows text without an
    exclamation mark, in a template that has no other one, is replaced by
    the input: the prompt is what the text with the input in its place
    gives.  A single [str] input counts as a list of one. *)
Theorem first_input_is_substituted input before after :
  Str.contains_char "!" before = false ->
  StrOps.contains (placeholder 0) after = false ->
  generate_prompt (One input) (before ++ placeholder 0 ++ after)
  = generate_prompt (Many []) (before ++ input ++ after)
  /\ generate_prompt (Many [input]) (before ++ placeholder 0 ++ after)
     = generate_prompt (One input) (before ++ placeholder 0 ++ after).
Proof.
  intros Hbefore Hafter. split; [|reflexivity].
  change (generate_prompt (One input) (before ++ placeholder 0 ++ after))
    with (generate_prompt (Many [])
            (StrOps.replace (placeholder 0) input
               (before ++ placeholder 0 ++ after))).
  f_equal.
  assert (Hshape : exists rest, placeholder 0 = String "!" rest)
    by (eexists; reflexivity).
  destruct Hshape as (ph & Hph). rewrite Hph in *.
  unfold StrOps.replace.
  rewrite StrOpsFacts.replace_scan_first.
  - f_equal. f_equal.
    exact (StrOpsFacts.replace_absent (String "!" ph) input after Hafter).
  - clear Hafter. induction before as [|c before IH]; intros k Hk.
    + simpl in Hk. lia.
    + simpl in Hbefore. apply orb_false_iff in Hbefore as [Hc Hb].
      destruct k as [|k].
      * cbn [StrOps.drop append StrOps.startswith].
        rewrite Ascii.eqb_sym, Hc. reflexivity.
      * cbn [StrOps.drop append]. apply IH; [exact Hb|]. simpl in Hk. lia.
Qed.

Lemma first_input_is_substituted_witness :
  generate_prompt (One "Ann") ("  Today " ++ placeholder 0 ++ " is ")
  = generate_prompt (Many []) ("  Today " ++ "Ann" ++ " is ").
Proof.
  apply (first_input_is_substituted "Ann" "  Today " " is ");
    vm_compute; reflexivity.
Defined.

(* ===================================================================== *)
(** ** Further properties of the request functions *)
(* ===================================================================== *)

Section RequestOutcomes.

Context `{RT : Runtime}.

Lemma _gpt5_nano_complete_stripped prompt m s st t st' :
  _gpt5_nano_complete prompt m s st = (Ok t, st') -> Str.strip t = t.
Proof.
  rewrite _gpt5_nano_complete_run.
  destruct (chat_completions_create _ _) as [o1 w1].
  destruct (answered o1) eqn:H1.
  - intros H. injection H as <- _.
    destruct o1 as [e|c]; [discriminate|]. apply text_of_stripped.
  - destruct (chat_completions_create _ w1) as [o2 w2].
    intros H. injection H as <- _.
    destruct o2 as [e|c]; [reflexivity|]. simpl.
    destruct (has_text c); [apply text_of_stripped|reflexivity].
Qed.

Lemma ChatGPT_single_request_run prompt st :
  ChatGPT_single_request prompt st
  = _gpt5_nano_complete prompt (PyInt 100) PyNone
      {| remote := remote st;
         trace := (trace st ++ [Requested "ChatGPT_single_request"])%list |}.
Proof. reflexivity. Qed.

End RequestOutcomes.

(** X13: every text that [_gpt5_nano_complete] and the four request
    functions return is stripped, so it is blank only when it is empty,
    and the [.strip()] the [ChatGPT] loops apply to it changes
    nothing. *)
Theorem responses_are_stripped `{RT : Runtime}
    prompt gpt_parameter m s st t st' :
  (_gpt5_nano_complete prompt m s st = (Ok t, st') -> Str.strip t = t)
  /\ (GPT_request prompt gpt_parameter st = (Ok t, st') -> Str.strip t = t)
  /\ (ChatGPT_request prompt st = (Ok t, st') -> Str.strip t = t)
  /\ (GPT4_request prompt st = (Ok t, st') -> Str.strip t = t)
  /\ (ChatGPT_single_request prompt st = (Ok t, st') -> Str.strip t = t).
Proof.
  split; [|split; [|split; [|split]]].
  - apply _gpt5_nano_complete_stripped.
  - exact (request_text_stripped (Safe gpt_parameter) prompt st t st').
  - exact (request_text_stripped ChatGPT_OLD prompt st t st').
  - intros H.
    pose proof (_gpt5_nano_complete_returns prompt (PyInt 200) PyNone
                  {| remote := remote st;
                     trace := (trace st ++ [Requested "GPT4_request"])%list |})
      as (t2 & st2 & H2 & _).
    unfold GPT4_request, temp_sleep, bind, log, try_except, ret in H.
    rewrite H2 in H. injection H as <- <-.
    exact (_gpt5_nano_complete_stripped _ _ _ _ _ _ H2).
  - rewrite ChatGPT_single_request_run. apply _gpt5_nano_complete_stripped.
Qed.

Lemma responses_are_stripped_witness :
  exists st',
    ChatGPT_request (RT := always "  driving ") "p"
      (start (always "  driving ") 0%nat)
    = (Ok "driving", st')
    /\ Str.strip "driving" = "driving".
Proof.
  eexists. split.
  - vm_compute. reflexivity.
  - apply (proj1 (proj2 (proj2
             (responses_are_stripped (RT := always "  driving ")
                "p" PyNone PyNone PyNone (start (always "  driving ") 0%nat)
                "driving"
                (snd (ChatGPT_request (RT := always "  driving ") "p"
                        (start (always "  driving ") 0%nat))))))).
    vm_compute. reflexivity.
Defined.

(* ===================================================================== *)
(** ** The request functions under errors that are not [Exception]s: facts *)
(* ===================================================================== *)

Section InterruptFacts.

Context `{CL : Interrupt.Client}.

(** The primitive as a function of the two replies of the client. *)
Lemma interrupt_primitive_run prompt m s st :
  Interrupt._gpt5_nano_complete prompt m s st =
  let (o1, w1) :=
    Interrupt.completions_create (primary_request prompt m) (remote st) in
  let st1 := {| remote := w1;
                trace := (trace st ++ [Created (primary_request prompt m)])%list |} in
  match o1 with
  | Interrupt.Fails (Interrupt.Base name) => (inl (Interrupt.Base name), st1)
  | _ =>
      if Interrupt.answered o1
      then (inr (match o1 with
                 | Interrupt.Answers c => text_of c
                 | Interrupt.Fails _ => EmptyString
                 end), st1)
      else
        let (o2, w2) :=
          Interrupt.completions_create (fallback_request prompt m s) w1 in
        let st2 := {| remote := w2;
                      trace := (trace st1
                                ++ [Created (fallback_request prompt m s)])%list |} in
        match o2 with
        | Interrupt.Fails (Interrupt.Base name) =>
            (inl (Interrupt.Base name), st2)
        | Interrupt.Fails (Interrupt.Exc _) => (inr "ChatGPT ERROR", st2)
        | Interrupt.Answers c =>
            (inr (if has_text c then text_of c else EmptyString), st2)
        end
  end.
Proof.
  unfold Interrupt._gpt5_nano_complete, Interrupt.try_except_Exception,
    Interrupt.bind, Interrupt.create, Interrupt.ret. simpl.
  destruct (Interrupt.completions_create (primary_request prompt m) (remote st))
    as [o1 w1].
  destruct o1 as [[e|name]|c]; simpl.
  - destruct (Interrupt.completions_create (fallback_request prompt m s) w1)
      as [o2 w2].
    destruct o2 as [[e2|name2]|c2]; simpl;
      [reflexivity | reflexivity | destruct (has_text c2); reflexivity].
  - reflexivity.
  - destruct (has_text c); simpl; [reflexivity|].
    destruct (Interrupt.completions_create (fallback_request prompt m s) w1)
      as [o2 w2].
    destruct o2 as [[e2|name2]|c2]; simpl;
      [reflexivity | reflexivity | destruct (has_text c2); reflexivity].
Qed.

(** What leaves the primitive is never an [Exception]. *)
Lemma interrupt_primitive_raises prompt m s st x st' :
  Interrupt._gpt5_nano_complete prompt m s st = (inl x, st') ->
  exists name, x = Interrupt.Base name.
Proof.
  rewrite interrupt_primitive_run.
  destruct (Interrupt.completions_create (primary_request prompt m) (remote st))
    as [o1 w1].
  cbv zeta.
  assert (Hrest :
    (if Interrupt.answered o1
     then (inr (match o1 with
                | Interrupt.Answers c => text_of c
                | Interrupt.Fails _ => EmptyString
                end),
           {| remote := w1;
              trace := (trace st ++ [Created (primary_request prompt m)])%list |})
     else
       let (o2, w2) :=
         Interrupt.completions_create (fallback_request prompt m s) w1 in
       match o2 with
       | Interrupt.Fails (Interrupt.Base name) =>
           (inl (Interrupt.Base name),
            {| remote := w2;
               trace := ((trace st ++ [Created (primary_request prompt m)])
                         ++ [Created (fallback_request prompt m s)])%list |})
       | Interrupt.Fails (Interrupt.Exc _) =>
           (inr "ChatGPT ERROR",
            {| remote := w2;
               trace := ((trace st ++ [Created (primary_request prompt m)])
                         ++ [Created (fallback_request prompt m s)])%list |})
       | Interrupt.Answers c =>
           (inr (if has_text c then text_of c else EmptyString),
            {| remote := w2;
               trace := ((trace st ++ [Created (primary_request prompt m)])
                         ++ [Created (fallback_request prompt m s)])%list |})
       end) = (inl x, st') -> exists name, x = Interrupt.Base name).
  { destruct (Interrupt.answered o1); [discriminate|].
    destruct (Interrupt.completions_create (fallback_request prompt m s) w1)
      as [o2 w2].
    destruct o2 as [[e2|name2]|c2]; try discriminate.
    intros H. injection H as <- _. exists name2. reflexivity. }
  destruct o1 as [[e|name]|c]; cbn [trace]; try exact Hrest.
  intros H. injection H as <- _. exists name. reflexivity.
Qed.

(** A function whose body sits in a bare [except] returns whatever its
    body does. *)
Lemma bare_except_returns {A} (m : Interrupt.M A) (a : A) st :
  exists t st',
    Interrupt.try_except m (fun _ => Interrupt.ret a) st = (inr t, st').
Proof.
  unfold Interrupt.try_except, Interrupt.ret.
  destruct (m st) as [[x|t] st']; eexists _, _; reflexivity.
Qed.

End InterruptFacts.

Section InterruptRequests.

Context `{CL : Interrupt.Client}.

(** [GPT_request] logs its name, reads [gpt_parameter], runs the
    primitive, and turns whatever is raised into the token-limit
    string. *)
Lemma interrupt_GPT_request_run prompt gpt_parameter st :
  Interrupt.GPT_request prompt gpt_parameter st =
  let st1 := {| remote := remote st;
                trace := (trace st ++ [Requested "GPT_request"])%list |} in
  match request_arguments (Safe gpt_parameter) with
  | None => (inr "TOKEN LIMIT EXCEEDED", st1)
  | Some (m, s) =>
      match Interrupt._gpt5_nano_complete prompt m s st1 with
      | (inl _, st') => (inr "TOKEN LIMIT EXCEEDED", st')
      | (inr t, st') => (inr t, st')
      end
  end.
Proof.
  unfold Interrupt.GPT_request, Interrupt.temp_sleep, Interrupt.bind,
    Interrupt.log, Interrupt.try_except, Interrupt.ret, Interrupt.lift.
  cbn [request_arguments]. cbv zeta.
  destruct (py_get gpt_parameter "max_tokens" (PyInt 50)) as [e|m];
    [reflexivity|].
  destruct (py_get gpt_parameter "stop" PyNone) as [e|s]; [reflexivity|].
  destruct (Interrupt._gpt5_nano_complete prompt m s _) as [[x|t] st'];
    reflexivity.
Qed.

(** [ChatGPT_request] and [GPT4_request] likewise, with ["ChatGPT ERROR"]. *)
Lemma interrupt_ChatGPT_request_run prompt st :
  Interrupt.ChatGPT_request prompt st =
  match Interrupt._gpt5_nano_complete prompt (PyInt 200) PyNone
          {| remote := remote st;
             trace := (trace st ++ [Requested "ChatGPT_request"])%list |} with
  | (inl _, st') => (inr "ChatGPT ERROR", st')
  | (inr t, st') => (inr t, st')
  end.
Proof.
  unfold Interrupt.ChatGPT_request, Interrupt.bind, Interrupt.log,
    Interrupt.try_except, Interrupt.ret.
  destruct (Interrupt._gpt5_nano_complete prompt (PyInt 200) PyNone _)
    as [[x|t] st']; reflexivity.
Qed.

Lemma interrupt_GPT4_request_run prompt st :
  Interrupt.GPT4_request prompt st =
  match Interrupt._gpt5_nano_complete prompt (PyInt 200) PyNone
          {| remote := remote st;
             trace := (trace st ++ [Requested "GPT4_request"])%list |} with
  | (inl _, st') => (inr "ChatGPT ERROR", st')
  | (inr t, st') => (inr t, st')
  end.
Proof.
  unfold Interrupt.GPT4_request, Interrupt.temp_sleep, Interrupt.bind,
    Interrupt.log, Interrupt.try_except, Interrupt.ret.
  destruct (Interrupt._gpt5_nano_complete prompt (PyInt 200) PyNone _)
    as [[x|t] st']; reflexivity.
Qed.

(** An interrupted primary call ends the primitive at once. *)
Lemma interrupt_primitive_at_primary prompt m s st name w1 :
  Interrupt.completions_create (primary_request prompt m) (remote st)
  = (Interrupt.Fails (Interrupt.Base name), w1) ->
  Interrupt._gpt5_nano_complete prompt m s st
  = (inl (Interrupt.Base name),
     {| remote := w1;
        trace := (trace st ++ [Created (primary_request prompt m)])%list |}).
Proof. intros H. rewrite interrupt_primitive_run, H. reflexivity. Qed.

End InterruptRequests.

(** On a client that raises instances of [Exception] only, the primitive
    of this embedding does what the primitive of the main embedding
    does. *)
Lemma interrupt_primitive_agrees (RT : Runtime) prompt m s st :
  Interrupt._gpt5_nano_complete (CL := Interrupt.of_runtime RT) prompt m s st
  = (match fst (_gpt5_nano_complete (RT := RT) prompt m s st) with
     | inl e => inl (Interrupt.Exc e)
     | inr t => inr t
     end,
     snd (_gpt5_nano_complete (RT := RT) prompt m s st)).
Proof.
  rewrite interrupt_primitive_run, _gpt5_nano_complete_run.
  destruct st as [w t].
  cbn [Interrupt.completions_create Interrupt.of_runtime Interrupt.machine
       remote trace].
  destruct (@chat_completions_create RT (primary_request prompt m) w)
    as [[e|c] w1]; cbn [Interrupt.answered answered answer_text fst snd].
  - destruct (@chat_completions_create RT (fallback_request prompt m s) w1)
      as [[e2|c2] w2]; reflexivity.
  - destruct (has_text c); [reflexivity|].
    destruct (@chat_completions_create RT (fallback_request prompt m s) w1)
      as [[e2|c2] w2]; reflexivity.
Qed.

(** ...and so does [GPT_request]. *)
Lemma interrupt_GPT_request_agrees (RT : Runtime) prompt gpt_parameter st :
  Interrupt.GPT_request (CL := Interrupt.of_runtime RT) prompt gpt_parameter st
  = (match fst (GPT_request (RT := RT) prompt gpt_parameter st) with
     | inl e => inl (Interrupt.Exc e)
     | inr t => inr t
     end,
     snd (GPT_request (RT := RT) prompt gpt_parameter st)).
Proof.
  rewrite interrupt_GPT_request_run.
  pose proof (request_run (RT := RT) (Safe gpt_parameter) prompt st) as H.
  cbn [request sent_prompt request_name] in H. rewrite H. cbv zeta.
  destruct (request_arguments (Safe gpt_parameter)) as [[m s]|];
    [|reflexivity].
  rewrite interrupt_primitive_agrees.
  change (@Interrupt.machine (Interrupt.of_runtime RT)) with (@world RT) in *.
  destruct (_gpt5_nano_complete_returns (RT := RT) prompt m s
              {| remote := remote st;
                 trace := (trace st ++ [Requested "GPT_request"])%list |})
    as (t & st' & Ht & _).
  rewrite !Ht. reflexivity.
Qed.

(** X14: [GPT_request], [ChatGPT_request] and [GPT4_request] return
    whatever the client raises, an interrupt such as [KeyboardInterrupt]
    included, because their handler is a bare [except]; the handlers of
    [_gpt5_nano_complete] are [except Exception], so the primitive, and
    [ChatGPT_single_request], which has no [try], raise exactly what is
    not an [Exception].  When the primary call is interrupted, the
    primitive raises after that one client call, without asking the
    secondary model, and the three request functions report it with
    their error string. *)
Theorem bare_except_absorbs_every_error `{CL : Interrupt.Client}
    prompt gpt_parameter st :
  (exists t st', Interrupt.GPT_request prompt gpt_parameter st = (inr t, st'))
  /\ (exists t st', Interrupt.ChatGPT_request prompt st = (inr t, st'))
  /\ (exists t st', Interrupt.GPT4_request prompt st = (inr t, st'))
  /\ (forall m s x st',
        Interrupt._gpt5_nano_complete prompt m s st = (inl x, st') ->
        exists name, x = Interrupt.Base name)
  /\ (forall x st',
        Interrupt.ChatGPT_single_request prompt st = (inl x, st') ->
        exists name, x = Interrupt.Base name)
  /\ (forall name,
        (forall m, exists w1,
           Interrupt.completions_create (primary_request prompt m) (remote st)
           = (Interrupt.Fails (Interrupt.Base name), w1)) ->
        (exists st',
           Interrupt.ChatGPT_single_request prompt st
           = (inl (Interrupt.Base name), st')
           /\ client_calls (trace st')
              = (client_calls (trace st)
                 ++ [primary_request prompt (PyInt 100)])%list)
        /\ (exists st',
              Interrupt.ChatGPT_request prompt st = (inr "ChatGPT ERROR", st'))
        /\ (exists st',
              Interrupt.GPT4_request prompt st = (inr "ChatGPT ERROR", st'))
        /\ (forall d, exists st',
              Interrupt.GPT_request prompt (PyDict d) st
              = (inr "TOKEN LIMIT EXCEEDED", st'))).
Proof.
  split; [|split; [|split; [|split; [|split]]]].
  - rewrite interrupt_GPT_request_run. cbv zeta.
    destruct (request_arguments (Safe gpt_parameter)) as [[m s]|];
      [|eexists _, _; reflexivity].
    destruct (Interrupt._gpt5_nano_complete prompt m s _) as [[x|t] st'];
      eexists _, _; reflexivity.
  - rewrite interrupt_ChatGPT_request_run.
    destruct (Interrupt._gpt5_nano_complete prompt (PyInt 200) PyNone _)
      as [[x|t] st']; eexists _, _; reflexivity.
  - rewrite interrupt_GPT4_request_run.
    destruct (Interrupt._gpt5_nano_complete prompt (PyInt 200) PyNone _)
      as [[x|t] st']; eexists _, _; reflexivity.
  - intros m s x st'. apply interrupt_primitive_raises.
  - intros x st'. unfold Interrupt.ChatGPT_single_request,
      Interrupt.temp_sleep, Interrupt.bind, Interrupt.log, Interrupt.ret.
    apply interrupt_primitive_raises.
  - intros name Hint. split; [|split; [|split]].
    + destruct (Hint (PyInt 100)) as (w1 & H1).
      eexists. split.
      * unfold Interrupt.ChatGPT_single_request, Interrupt.temp_sleep,
          Interrupt.bind, Interrupt.log, Interrupt.ret.
        apply interrupt_primitive_at_primary. exact H1.
      * cbn [trace]. rewrite !client_calls_app. simpl.
        rewrite app_nil_r. reflexivity.
    + destruct (Hint (PyInt 200)) as (w1 & H1).
      rewrite interrupt_ChatGPT_request_run.
      match goal with
      | |- context [Interrupt._gpt5_nano_complete prompt ?a ?b ?x] =>
          rewrite (interrupt_primitive_at_primary prompt a b x name w1 H1)
      end.
      eexists. reflexivity.
    + destruct (Hint (PyInt 200)) as (w1 & H1).
      rewrite interrupt_GPT4_request_run.
      match goal with
      | |- context [Interrupt._gpt5_nano_complete prompt ?a ?b ?x] =>
          rewrite (interrupt_primitive_at_primary prompt a b x name w1 H1)
      end.
      eexists. reflexivity.
    + intros d. rewrite interrupt_GPT_request_run. cbv zeta.
      cbn [request_arguments py_get].
      destruct (Dict.lookup "max_tokens" d) as [m|],
               (Dict.lookup "stop" d) as [s|];
        unfold Ok; cbv beta iota;
        match goal with
        | |- context [Interrupt._gpt5_nano_complete prompt ?a ?b ?x] =>
            destruct (Hint a) as (w1 & H1);
            rewrite (interrupt_primitive_at_primary prompt a b x name w1 H1)
        end; eexists; reflexivity.
Qed.

Lemma bare_except_absorbs_every_error_witness :
  (exists st',
     Interrupt.ChatGPT_single_request (CL := Interrupt.interrupted) "p"
       {| remote := 0%nat; trace := [] |}
     = (inl (Interrupt.Base "KeyboardInterrupt"), st')
     /\ client_calls (trace st') = ([] ++ [primary_request "p" (PyInt 100)])%list)
  /\ (exists st',
        Interrupt.ChatGPT_request (CL := Interrupt.interrupted) "p"
          {| remote := 0%nat; trace := [] |}
        = (inr "ChatGPT ERROR", st'))
  /\ (exists st',
        Interrupt.GPT4_request (CL := Interrupt.interrupted) "p"
          {| remote := 0%nat; trace := [] |}
        = (inr "ChatGPT ERROR", st'))
  /\ (forall d, exists st',
        Interrupt.GPT_request (CL := Interrupt.interrupted) "p" (PyDict d)
          {| remote := 0%nat; trace := [] |}
        = (inr "TOKEN LIMIT EXCEEDED", st')).
Proof.
  pose proof (bare_except_absorbs_every_error (CL := Interrupt.interrupted)
                "p" PyNone {| remote := 0%nat; trace := [] |}) as H.
  destruct H as (_ & _ & _ & _ & _ & H).
  apply (H "KeyboardInterrupt"). intros m. exists 1%nat. reflexivity.
Defined.

(** X15: where ["TOKEN LIMIT EXCEEDED"] comes from.  When [GPT_request]
    returns it, [gpt_parameter] is not a dictionary, or a model answered
    with that very text, or the client raised something that is not an
    [Exception], at the primary call or at the secondary one.  A failure
    of the service that is an [Exception] is never reported by it: when
    both calls raise one, [GPT_request] returns ["ChatGPT ERROR"]. *)
Theorem token_limit_string_sources `{CL : Interrupt.Client}
    prompt gpt_parameter st :
  (forall st',
     Interrupt.GPT_request prompt gpt_parameter st
     = (inr "TOKEN LIMIT EXCEEDED", st') ->
     (forall d, gpt_parameter <> PyDict d)
     \/ (exists m s o1 w1,
           request_arguments (Safe gpt_parameter) = Some (m, s)
           /\ Interrupt.completions_create (primary_request prompt m) (remote st)
              = (o1, w1)
           /\ ((exists name, o1 = Interrupt.Fails (Interrupt.Base name))
               \/ (exists text,
                     o1 = Interrupt.Answers (Some text)
                     /\ Str.strip text = "TOKEN LIMIT EXCEEDED")
               \/ (Interrupt.answered o1 = false
                   /\ exists o2 w2,
                        Interrupt.completions_create
                          (fallback_request prompt m s) w1 = (o2, w2)
                        /\ ((exists name,
                               o2 = Interrupt.Fails (Interrupt.Base name))
                            \/ (exists text,
                                  o2 = Interrupt.Answers (Some text)
                                  /\ Str.strip text
                                     = "TOKEN LIMIT EXCEEDED"))))))
  /\ (forall m s e1 w1 e2 w2,
        request_arguments (Safe gpt_parameter) = Some (m, s) ->
        Interrupt.completions_create (primary_request prompt m) (remote st)
        = (Interrupt.Fails (Interrupt.Exc e1), w1) ->
        Interrupt.completions_create (fallback_request prompt m s) w1
        = (Interrupt.Fails (Interrupt.Exc e2), w2) ->
        exists st',
          Interrupt.GPT_request prompt gpt_parameter st
          = (inr "ChatGPT ERROR", st')).
Proof.
  split.
  - intros st'. rewrite interrupt_GPT_request_run. cbv zeta.
    destruct (request_arguments (Safe gpt_parameter)) as [[m s]|] eqn:Hargs.
    + intros H. right.
      rewrite interrupt_primitive_run in H. cbn [remote trace] in H.
      destruct (Interrupt.completions_create (primary_request prompt m)
                  (remote st)) as [o1 w1] eqn:H1.
      exists m, s, o1, w1. split; [reflexivity|]. split; [exact H1|].
      destruct o1 as [[e|name]|c].
      * right. right. split; [reflexivity|].
        cbn [Interrupt.answered] in H.
        destruct (Interrupt.completions_create (fallback_request prompt m s) w1)
          as [o2 w2] eqn:H2.
        exists o2, w2. split; [reflexivity|].
        destruct o2 as [[e2|name2]|[text|]].
        -- discriminate H.
        -- left. exists name2. reflexivity.
        -- right. exists text. split; [reflexivity|].
           injection H as Ht _. simpl in Ht.
           destruct (Str.truthy text && Str.truthy (Str.strip text))%bool;
             [exact Ht|discriminate Ht].
        -- discriminate H.
      * left. exists name. reflexivity.
      * cbn [Interrupt.answered] in H.
        destruct (has_text c) eqn:Hc.
        -- right. left. destruct c as [text|]; [|discriminate Hc].
           exists text. split; [reflexivity|].
           injection H as Ht _. exact Ht.
        -- right. right. split; [exact Hc|].
           destruct (Interrupt.completions_create (fallback_request prompt m s) w1)
             as [o2 w2] eqn:H2.
           exists o2, w2. split; [reflexivity|].
           destruct o2 as [[e2|name2]|[text|]].
           ++ discriminate H.
           ++ left. exists name2. reflexivity.
           ++ right. exists text. split; [reflexivity|].
              injection H as Ht _. simpl in Ht.
              destruct (Str.truthy text && Str.truthy (Str.strip text))%bool;
                [exact Ht|discriminate Ht].
           ++ discriminate H.
    + intros _. left. intros d ->. cbn [request_arguments py_get] in Hargs.
      destruct (Dict.lookup "max_tokens" d), (Dict.lookup "stop" d);
        discriminate Hargs.
  - intros m s e1 w1 e2 w2 Hargs H1 H2.
    rewrite interrupt_GPT_request_run. cbv zeta. rewrite Hargs.
    rewrite interrupt_primitive_run. cbn [remote trace].
    rewrite H1. cbn [Interrupt.answered]. rewrite H2.
    eexists. reflexivity.
Qed.

Lemma token_limit_string_sources_witness :
  (forall d, PyDict [] <> PyDict d)
  \/ (exists m s o1 w1,
        request_arguments (Safe (PyDict [])) = Some (m, s)
        /\ Interrupt.completions_create
             (Client := Interrupt.interrupted_at_fallback)
             (primary_request "p" m) 0%nat
           = (o1, w1)
        /\ ((exists name, o1 = Interrupt.Fails (Interrupt.Base name))
            \/ (exists text,
                  o1 = Interrupt.Answers (Some text)
                  /\ Str.strip text = "TOKEN LIMIT EXCEEDED")
            \/ (Interrupt.answered o1 = false
                /\ exists o2 w2,
                     Interrupt.completions_create
                       (Client := Interrupt.interrupted_at_fallback)
                       (fallback_request "p" m s) w1 = (o2, w2)
                     /\ ((exists name,
                            o2 = Interrupt.Fails (Interrupt.Base name))
                         \/ (exists text,
                               o2 = Interrupt.Answers (Some text)
                               /\ Str.strip text
                                  = "TOKEN LIMIT EXCEEDED"))))).
Proof.
  apply (proj1 (token_limit_string_sources
                  (CL := Interrupt.interrupted_at_fallback) "p" (PyDict [])
                  {| remote := 0%nat; trace := [] |})
           (snd (Interrupt.GPT_request
                   (CL := Interrupt.interrupted_at_fallback) "p" (PyDict [])
                   {| remote := 0%nat; trace := [] |}))).
  vm_compute. reflexivity.
Defined.

(* ===================================================================== *)
(** ** Embeddings and the validator of [__main__] *)
(* ===================================================================== *)

Module EmbeddingFacts.
Import StrOps.

(** [text.replace("\n", " ")], one character at a time. *)
Lemma replace_newline c r :
  replace Str.nl " " (String c r)
  = String (if Ascii.eqb c "010" then " "%char else c)
      (replace Str.nl " " r).
Proof.
  unfold replace. change Str.nl with (String "010" EmptyString).
  cbn [replace_scan startswith String.length Nat.sub].
  rewrite Ascii.eqb_sym.
  destruct (Ascii.eqb c "010"); reflexivity.
Qed.

Lemma replace_newline_empty : replace Str.nl " " EmptyString = EmptyString.
Proof. reflexivity. Qed.

Lemma replace_newline_clean s :
  Str.contains_char "010" (replace Str.nl " " s) = false.
Proof.
  induction s as [|c r IH]; [reflexivity|].
  rewrite replace_newline. cbn [Str.contains_char]. rewrite IH.
  destruct (Ascii.eqb c "010") eqn:E; [reflexivity|].
  rewrite E. reflexivity.
Qed.

Lemma replace_newline_length s :
  String.length (replace Str.nl " " s) = String.length s.
Proof.
  induction s as [|c r IH]; [reflexivity|].
  rewrite replace_newline. cbn [String.length]. rewrite IH. reflexivity.
Qed.

Lemma replace_newline_idempotent s :
  replace Str.nl " " (replace Str.nl " " s) = replace Str.nl " " s.
Proof.
  induction s as [|c r IH]; [reflexivity|].
  rewrite replace_newline, replace_newline, IH.
  destruct (Ascii.eqb c "010") eqn:E; [reflexivity|].
  rewrite E. reflexivity.
Qed.

End EmbeddingFacts.

(** X16: the text [get_embedding] sends to the endpoint is never empty
    and has no new line: an empty text is sent as ["this is blank"], any
    other text with each new line turned into a space and nothing added or
    removed (a text of new lines only is sent as spaces, not as
    ["this is blank"]).  Sending the text already cleaned gives the same
    call. *)
Theorem embedding_input_is_clean `{E : Embedder} text model st :
  Str.contains_char "010" (embedding_input text) = false
  /\ embedding_input text <> EmptyString
  /\ (text = EmptyString -> embedding_input text = "this is blank")
  /\ (text <> EmptyString ->
      embedding_input text = StrOps.replace Str.nl " " text
      /\ String.length (embedding_input text) = String.length text)
  /\ get_embedding (embedding_input text) model st
     = get_embedding text model st.
Proof.
  assert (Hcases : (text = EmptyString /\ embedding_input text = "this is blank")
                   \/ (text <> EmptyString
                       /\ embedding_input text = StrOps.replace Str.nl " " text)).
  { destruct text as [|c r]; [left; split; reflexivity|].
    right. split; [discriminate|].
    unfold embedding_input. rewrite EmbeddingFacts.replace_newline.
    reflexivity. }
  assert (Hidem : embedding_input (embedding_input text) = embedding_input text).
  { destruct Hcases as [(-> & _)|(Hne & Hin)]; [reflexivity|].
    rewrite Hin. destruct text as [|c r]; [congruence|].
    unfold embedding_input.
    rewrite EmbeddingFacts.replace_newline_idempotent.
    rewrite EmbeddingFacts.replace_newline. reflexivity. }
  split; [|split; [|split; [|split]]].
  - destruct Hcases as [(_ & ->)|(_ & ->)]; [reflexivity|].
    apply EmbeddingFacts.replace_newline_clean.
  - destruct Hcases as [(_ & ->)|(Hne & ->)]; [discriminate|].
    destruct text as [|c r]; [congruence|].
    rewrite EmbeddingFacts.replace_newline. discriminate.
  - intros ->. reflexivity.
  - intros Hne. destruct Hcases as [(Hempty & _)|(_ & Hin)]; [congruence|].
    split; [exact Hin|].
    rewrite Hin. apply EmbeddingFacts.replace_newline_length.
  - unfold get_embedding. rewrite Hidem. reflexivity.
Qed.

Lemma embedding_input_is_clean_witness :
  embedding_input ("a" ++ Str.nl ++ "b")
  = StrOps.replace Str.nl " " ("a" ++ Str.nl ++ "b")
  /\ String.length (embedding_input ("a" ++ Str.nl ++ "b"))
     = String.length ("a" ++ Str.nl ++ "b").
Proof.
  destruct (embedding_input_is_clean (E := echo down) ("a" ++ Str.nl ++ "b")
              "text-embedding-3-small" (start down 0%nat))
    as (_ & _ & _ & H & _).
  apply H. discriminate.
Defined.

(** X17: what the validator of the [__main__] block accepts is a single
    word: the cleaned-up response has at least two characters, no space
    in it and no white space around it; the verdict does not depend on
    white space around the response. *)
Theorem main_validator_accepts_single_words gpt_response :
  (__func_validate gpt_response = true ->
   (2 <= String.length (__func_clean_up gpt_response))%nat
   /\ Str.contains_char " " (__func_clean_up gpt_response) = false
   /\ Str.strip (__func_clean_up gpt_response) = __func_clean_up gpt_response)
  /\ __func_validate (__func_clean_up gpt_response)
     = __func_validate gpt_response.
Proof.
  unfold __func_validate, __func_clean_up. split.
  - intros H.
    destruct (Z.of_nat (String.length (Str.strip gpt_response)) <=? 1) eqn:Hlen;
      [discriminate|].
    destruct (Str.contains_char " " (Str.strip gpt_response)) eqn:Hsp;
      [discriminate|].
    split; [apply Z.leb_gt in Hlen; lia|].
    split; [reflexivity|apply StripFacts.strip_idempotent].
  - rewrite StripFacts.strip_idempotent. reflexivity.
Qed.

Lemma main_validator_accepts_single_words_witness :
  (2 <= String.length (__func_clean_up "  driving "))%nat
  /\ Str.contains_char " " (__func_clean_up "  driving ") = false
  /\ Str.strip (__func_clean_up "  driving ") = __func_clean_up "  driving ".
Proof.
  apply (proj1 (main_validator_accepts_single_words "  driving ")).
  vm_compute. reflexivity.
Defined.

(* ===================================================================== *)
(** ** Text after the last brace *)
(* ===================================================================== *)

Module BraceFacts.
Import Str.

Lemma rfind_last c tail : forall head,
  contains_char c tail = false ->
  rfind c (head ++ String c tail) = Z.of_nat (String.length head).
Proof.
  intros head Htail. induction head as [|d head IH].
  - cbn [append rfind String.length]. rewrite (StrFacts.rfind_absent _ _ Htail).
    rewrite Ascii.eqb_refl. reflexivity.
  - cbn [append rfind String.length]. rewrite IH.
    destruct (0 <=? Z.of_nat (String.length head)) eqn:E;
      [lia | apply Z.leb_gt in E; lia].
Qed.

Lemma take_app_length a b : take (String.length a) (a ++ b) = a.
Proof. induction a as [|c a IH]; [destruct b; reflexivity|]. simpl. rewrite IH. reflexivity. Qed.

(** The slice stops at the last closing brace. *)
Lemma through_last_brace_app head tail :
  contains_char "}" tail = false ->
  through_last_brace (head ++ "}" ++ tail) = head ++ "}".
Proof.
  intros Htail. unfold through_last_brace, slice_to.
  change (head ++ "}" ++ tail) with (head ++ String "}" tail).
  rewrite (rfind_last _ _ head Htail).
  destruct (Z.of_nat (String.length head) + 1 <? 0) eqn:E;
    [apply Z.ltb_lt in E; lia|].
  replace (Z.to_nat (Z.of_nat (String.length head) + 1))
    with (String.length (head ++ "}"))
    by (rewrite StrOpsFacts.length_app; simpl; lia).
  replace (head ++ String "}" tail) with ((head ++ "}") ++ tail).
  - apply take_app_length.
  - clear. induction head as [|c head IH]; [reflexivity|].
    simpl. rewrite IH. reflexivity.
Qed.

End BraceFacts.

(** X18: in [ChatGPT_safe_generate_response] and
    [GPT4_safe_generate_response] what the model writes after the last
    closing brace does not matter.  When the stripped response is
    [head ++ "}" ++ tail] and [tail] has no closing brace, the attempt
    decodes [head ++ "}"] and ends as that text, the validator and the
    cleanup decide; when all three succeed on it, the loop returns the
    cleanup's value at its first attempt. *)
Theorem text_after_last_brace_is_ignored `{RT : Runtime}
    v prompt func_validate func_clean_up st t st1 head tail :
  decodes_json v = true ->
  request v prompt st = (Ok t, st1) ->
  Str.strip t = head ++ "}" ++ tail ->
  Str.contains_char "}" tail = false ->
  attempt v prompt func_validate func_clean_up st
  = (match json_loads (head ++ "}") with
     | inl _ => Ok Next
     | inr document =>
         match py_getitem document "output" with
         | inl _ => Ok Next
         | inr c =>
             match func_validate c (sent_prompt v prompt) with
             | inr true =>
                 match func_clean_up c (sent_prompt v prompt) with
                 | inr r => Ok (Return r)
                 | inl _ => Ok Next
                 end
             | _ => Ok Next
             end
         end
     end, st1)
  /\ (forall repeat fail_safe verbose document c r,
        0 < repeat ->
        json_loads (head ++ "}") = Ok document ->
        py_getitem document "output" = Ok c ->
        func_validate c (sent_prompt v prompt) = Ok true ->
        func_clean_up c (sent_prompt v prompt) = Ok r ->
        requester v prompt repeat fail_safe func_validate func_clean_up
          verbose st
        = (Ok r, st1)).
Proof.
  intros Hjson Hreq Hstrip Htail.
  assert (E : through_last_brace (Str.strip t) = head ++ "}").
  { rewrite Hstrip. apply BraceFacts.through_last_brace_app. exact Htail. }
  assert (Hatt :
    attempt v prompt func_validate func_clean_up st
    = (match json_loads (head ++ "}") with
       | inl _ => Ok Next
       | inr document =>
           match py_getitem document "output" with
           | inl _ => Ok Next
           | inr c =>
               match func_validate c (sent_prompt v prompt) with
               | inr true =>
                   match func_clean_up c (sent_prompt v prompt) with
                   | inr r => Ok (Return r)
                   | inl _ => Ok Next
                   end
               | _ => Ok Next
               end
           end
       end, st1)).
  { rewrite (attempt_run _ _ _ _ _ _ _ Hreq). unfold attempt_outcome.
    destruct v; try discriminate; cbn [candidate guarded]; rewrite E;
      (destruct (json_loads (head ++ "}")) as [e|d]; [reflexivity|]);
      (destruct (py_getitem d "output") as [e|c]; [reflexivity|]);
      (destruct (func_validate c _) as [e|[|]]; try reflexivity);
      destruct (func_clean_up c _) as [e|r]; reflexivity. }
  split; [exact Hatt|].
  intros repeat fail_safe verbose d c r Hpos Hd Hc Hv Hcl.
  rewrite Hd in Hatt. unfold Ok in Hc, Hv, Hcl.
  cbv beta iota delta [Ok] in Hatt.
  rewrite Hc, Hv, Hcl in Hatt.
  rewrite requester_run.
  rewrite (for_range_return _ 0 (Z.to_nat repeat) st st r st1
             (rounds_done _ st) Hatt); [reflexivity | lia].
Qed.

Lemma text_after_last_brace_is_ignored_witness :
  exists st1,
    attempt (RT := always (output_ok ++ " Hope this helps!"))
      (ChatGPT "e" "i") "p" accept_non_empty keep
      (start (always (output_ok ++ " Hope this helps!")) 0%nat)
    = (Ok (Return (PyStr "ok")), st1)
    /\ requester (RT := always (output_ok ++ " Hope this helps!"))
         (ChatGPT "e" "i") "p" 3 (PyStr "error") accept_non_empty keep false
         (start (always (output_ok ++ " Hope this helps!")) 0%nat)
       = (Ok (PyStr "ok"), st1).
Proof.
  destruct (text_after_last_brace_is_ignored
              (RT := always (output_ok ++ " Hope this helps!"))
              (ChatGPT "e" "i") "p" accept_non_empty keep
              (start (always (output_ok ++ " Hope this helps!")) 0%nat)
              (output_ok ++ " Hope this helps!")
              (snd (request (RT := always (output_ok ++ " Hope this helps!"))
                      (ChatGPT "e" "i") "p"
                      (start (always (output_ok ++ " Hope this helps!"))
                         0%nat)))
              ("{" ++ Str.dq ++ "output" ++ Str.dq ++ ": " ++ Str.dq ++ "ok"
               ++ Str.dq)
              " Hope this helps!")
    as [Hattempt Hloop];
    [reflexivity | vm_compute; reflexivity | vm_compute; reflexivity
     | reflexivity |].
  eexists. split.
  - etransitivity; [exact Hattempt|]. vm_compute. reflexivity.
  - apply (Hloop 3 (PyStr "error") false
             (PyDict [("output", PyStr "ok")]) (PyStr "ok") (PyStr "ok"));
      [lia | vm_compute; reflexivity | reflexivity | reflexivity
       | reflexivity].
Defined.
